(** * Open Data Insight Platform: the frontend of the ingestion pipeline

    A shallow embedding of the TypeScript sources under [src/frontend/app]
    (the connection wizard with its polling loop, the dashboard helpers, the
    preset recommender, the chart preview and the history modal), and of the
    job state machine of the specification, followed by the properties
    established about them.

    JavaScript numbers are IEEE-754 binary64 values: they are modelled by
    Rocq's primitive floats, so that [===], [-], [/], [Math.min] and
    [Math.max] behave as in the source, NaN and overflow included.  Objects
    used as maps are association lists in property-enumeration order, since
    the sources iterate over [Object.entries] and [Object.keys]. *)

From Stdlib Require Import List String Ascii ZArith Bool Arith Lia Floats.
From Stdlib Require Import Sorted Permutation.
Import ListNotations.
Local Open Scope string_scope.
Local Open Scope nat_scope.

(* ================================================================== *)
(** * JavaScript values and the builtins the sources call *)
(* ================================================================== *)

Module JS.

(** A JavaScript [number]. *)
Definition number : Set := float.

(** The values a [Record<string, unknown>] cell may hold.  [VDate] is a valid
    [Date] (its time value in milliseconds); [VObject] stands for any other
    object, array or function, named by a tag. *)
Inductive value : Set :=
| VUndefined
| VNull
| VBool (b : bool)
| VNumber (x : number)
| VString (s : string)
| VDate (t : Z)
| VObject (tag : string).

(** An object used as a map: its own enumerable properties, in the order
    [Object.entries] lists them. *)
Definition object (A : Type) : Type := list (string * A).

Definition Object_entries {A} (o : object A) : list (string * A) := o.
Definition Object_keys {A} (o : object A) : list string := map fst o.

(** Own-property lookup. *)
Fixpoint own {A} (o : object A) (k : string) : option A :=
  match o with
  | [] => None
  | (k', v) :: rest => if String.eqb k' k then Some v else own rest k
  end.

(** [o[k] = v]: assignment keeps the position of an existing key and appends
    a new one. *)
Fixpoint assign {A} (o : object A) (k : string) (v : A) : object A :=
  match o with
  | [] => [(k, v)]
  | (k', v') :: rest =>
      if String.eqb k' k then (k', v) :: rest else (k', v') :: assign rest k v
  end.

(** [{...o, ...p}]: every property of [p] is assigned onto [o] in turn. *)
Definition spread {A} (o p : object A) : object A :=
  fold_left (fun acc kv => assign acc (fst kv) (snd kv)) p o.

(** The builtins of the host that the sources rely on.  They are kept
    abstract: the properties below hold for every implementation. *)
Class Runtime : Type := {
  (** [process.env.NEXT_PUBLIC_API_BASE_URL ?? "http://localhost:8000"] *)
  API_BASE_URL : string;
  (** [String.prototype.toLowerCase] and [String.prototype.trim] *)
  toLowerCase : string -> string;
  trim : string -> string;
  (** [Date.parse]: [None] stands for NaN, [Some t] for a finite time value *)
  Date_parse : string -> option Z;
  (** [Number(s)] on a string *)
  Number_of_string : string -> number;
  (** [String(v)] *)
  String_of : value -> string;
  (** [Date.prototype.toISOString] on a valid date *)
  toISOString : Z -> string;
  (** [v.toLocaleString()] on a date or a number *)
  toLocaleString : value -> string;
  (** the properties a plain object inherits from [Object.prototype] *)
  Object_prototype : string -> option value
}.

(** [record[k]] on a plain object: own property first, then the prototype,
    else [undefined]. *)
Definition get `{Runtime} (record : object value) (k : string) : value :=
  match own record k with
  | Some v => v
  | None =>
      match Object_prototype k with
      | Some v => v
      | None => VUndefined
      end
  end.

Definition is_string (v : value) : bool :=
  match v with VString _ => true | _ => false end.

(** [typeof v === "number"] *)
Definition is_number (v : value) : bool :=
  match v with VNumber _ => true | _ => false end.

(** [Array.prototype.join] on strings. *)
Fixpoint join (sep : string) (parts : list string) : string :=
  match parts with
  | [] => ""
  | [p] => p
  | p :: rest => p ++ sep ++ join sep rest
  end.

(** [String.prototype.includes]. *)
Fixpoint includes (s keyword : string) : bool :=
  String.prefix keyword s ||
  match s with
  | EmptyString => false
  | String _ rest => includes rest keyword
  end.

(** [Math.max] and [Math.min] of two numbers: NaN if either is NaN, and +0
    counts as larger than -0. *)
Definition Math_max (a b : number) : number :=
  if PrimFloat.is_nan a || PrimFloat.is_nan b then PrimFloat.nan
  else if PrimFloat.ltb a b then b
  else if PrimFloat.ltb b a then a
  else if PrimFloat.get_sign a then b else a.

Definition Math_min (a b : number) : number :=
  if PrimFloat.is_nan a || PrimFloat.is_nan b then PrimFloat.nan
  else if PrimFloat.ltb a b then a
  else if PrimFloat.ltb b a then b
  else if PrimFloat.get_sign a then a else b.

End JS.

(* ================================================================== *)
(** * The data model (types of connection-wizard.tsx) *)
(* ================================================================== *)

Module Model.
Import JS.

Record NumericSummary : Set := {
  mean : option number;
  minimum : option number;
  maximum : option number
}.

Record VisualizationArtifact : Set := {
  column : string;
  chart_type : string;
  title : string;
  image_base64 : string;
  description : option string
}.

Record SchemaDetail : Set := {
  sd_column : string;
  dtype : string;
  non_null : number;
  null_count : number
}.

Record IngestionSummary : Type := {
  record_count : option number;
  schema_fields : list string;
  sample_records : list (object value);
  numeric_summary : object NumericSummary;
  schema_details : list SchemaDetail;
  categorical_summary : object (list (string * number));
  descriptive_stats : object (object (option number));
  numeric_histograms : object (list (string * number));
  visualizations : option (list VisualizationArtifact)
}.

Inductive JobStatus : Set := Pending | Running | Completed | Failed.

Record IngestionJobResponse : Type := {
  job_id : string;
  connection_id : string;
  status : JobStatus;
  created_at : string;
  started_at : option string;
  finished_at : option string;
  message : option string;
  errors : list string;
  summary : option IngestionSummary
}.

Record ConnectionResponse : Type := {
  id : string;
  portal_name : string;
  dataset_id : string;
  last_ingested_at : option string;
  last_ingestion_summary : option IngestionSummary
}.

Definition is_terminal (s : JobStatus) : bool :=
  match s with
  | Completed | Failed => true
  | Pending | Running => false
  end.

End Model.

(* ================================================================== *)
(** * connection-wizard.tsx: starting an ingestion and polling its job *)
(* ================================================================== *)

Module Wizard.
Import JS Model.

(** The JSON body of a request: an object of scalar fields, as
    [JSON.stringify] receives it. *)
Inductive json_scalar : Set :=
| JBool (b : bool)
| JString (s : string).

Definition json : Set := list (string * json_scalar).

Inductive http_method : Set := GET | POST.

(** One call of [fetch]. *)
Record request : Set := {
  req_method : http_method;
  req_url : string;
  req_headers : list (string * string);
  req_body : option json
}.

(** What the component does to the outside world, in order. *)
Inductive event : Type :=
| Sleep (ms : nat)
| Fetch (r : request)
| JobCompleted (connectionId : string) (job : IngestionJobResponse).

(** How one [fetch] ends, as far as the handlers tell the cases apart. *)
Inductive reply : Type :=
| FetchThrows (error_message : option string)
    (* fetch rejects; the message when the error is an [Error] *)
| NotOk (detail : option string)
    (* [response.ok] is false; [detail] of the parsed error body, if any *)
| BadBody (error_message : option string)
    (* the response is ok and [response.json()] rejects *)
| OkJob (job : IngestionJobResponse).

(** The network: the reply to the n-th request of a run. *)
Definition network : Type := nat -> reply.

(** The [onJobCompleted] prop: absent, or a handler that returns ([true]) or
    throws ([false]). *)
Definition callback : Type := option (string -> IngestionJobResponse -> bool).

Inductive IngestState : Set :=
| Idle | Starting | Polling | IngestCompleted | IngestFailed | Timeout.

(** The component state the two handlers read and write, with the log of
    their effects (oldest first). *)
Record wizard : Type := {
  connectionId : option string;
  jobStatus : option IngestionJobResponse;
  ingestState : IngestState;
  ingestError : option string;
  effects : list event
}.

Definition setJobStatus (j : option IngestionJobResponse) (w : wizard) : wizard :=
  {| connectionId := connectionId w; jobStatus := j;
     ingestState := ingestState w; ingestError := ingestError w;
     effects := effects w |}.

Definition setIngestState (s : IngestState) (w : wizard) : wizard :=
  {| connectionId := connectionId w; jobStatus := jobStatus w;
     ingestState := s; ingestError := ingestError w;
     effects := effects w |}.

Definition setIngestError (e : option string) (w : wizard) : wizard :=
  {| connectionId := connectionId w; jobStatus := jobStatus w;
     ingestState := ingestState w; ingestError := e;
     effects := effects w |}.

Definition emit (e : event) (w : wizard) : wizard :=
  {| connectionId := connectionId w; jobStatus := jobStatus w;
     ingestState := ingestState w; ingestError := ingestError w;
     effects := effects w ++ [e] |}.

(** [a ?? b] *)
Definition nullish {A} (a : option A) (b : A) : A :=
  match a with Some x => x | None => b end.

Section Handlers.
Context {rt : Runtime}.

(** [fetch(`${API_BASE_URL}/connections/${connectionId}/ingest/${jobId}`)] *)
Definition status_request (connectionId jobId : string) : request :=
  {| req_method := GET;
     req_url := API_BASE_URL ++ "/connections/" ++ connectionId ++ "/ingest/" ++ jobId;
     req_headers := [];
     req_body := None |}.

(** The [fetch] of [handleIngestion]. *)
Definition ingest_request (connectionId : string) : request :=
  {| req_method := POST;
     req_url := API_BASE_URL ++ "/connections/" ++ connectionId ++ "/ingest";
     req_headers := [("Content-Type", "application/json")];
     req_body := Some [("force_refresh", JBool false)] |}.

(** [onJobCompleted?.(connectionId, data)] inside the [try] of the loop: the
    call is logged; when the handler throws, the [catch] block runs. *)
Definition notify (cb : callback) (connectionId : string)
    (data : IngestionJobResponse) (w : wizard) : wizard :=
  match cb with
  | None => w
  | Some handler =>
      let w := emit (JobCompleted connectionId data) w in
      if handler connectionId data then w
      else setIngestState IngestFailed
             (setIngestError (Some "Error while checking ingestion status.") w)
  end.

(** The body of [for (let attempt = 0; attempt < 12; attempt += 1)], with
    [remaining = 12 - attempt], followed by the code after the loop. *)
Fixpoint poll_loop (net : network) (cb : callback) (connectionId jobId : string)
    (remaining attempt : nat) (w : wizard) : wizard :=
  match remaining with
  | O =>
      setIngestState Timeout
        (setIngestError (Some "Ingestion did not finish in the expected time.") w)
  | S remaining' =>
      let w := emit (Sleep 750) w in
      let w := emit (Fetch (status_request connectionId jobId)) w in
      match net attempt with
      | FetchThrows _ | BadBody _ =>
          setIngestState IngestFailed
            (setIngestError (Some "Error while checking ingestion status.") w)
      | NotOk _ =>
          setIngestState IngestFailed
            (setIngestError (Some "Unable to check ingestion status.") w)
      | OkJob data =>
          let w := setJobStatus (Some data) w in
          match status data with
          | Completed =>
              notify cb connectionId data (setIngestState IngestCompleted w)
          | Failed =>
              notify cb connectionId data
                (setIngestState IngestFailed
                   (setIngestError
                      (Some (nullish (message data) "Data ingestion failed.")) w))
          | Pending | Running =>
              poll_loop net cb connectionId jobId remaining' (S attempt) w
          end
      end
  end.

Definition pollJobStatus (net : network) (cb : callback)
    (connectionId jobId : string) (w : wizard) : wizard :=
  poll_loop net cb connectionId jobId 12 0 (setIngestState Polling w).

(** [!connectionId]: null or the empty string. *)
Definition falsy (s : option string) : bool :=
  match s with
  | None => true
  | Some c => String.eqb c ""
  end.

(** [handleIngestion]: the first reply of [net] answers the POST, the
    following ones the polls. *)
Definition handleIngestion (net : network) (cb : callback) (w : wizard) : wizard :=
  match connectionId w with
  | Some c =>
      if String.eqb c "" then
        setIngestState IngestFailed
          (setIngestError (Some "Save the connection before running ingestion.") w)
      else
        let w := setIngestError None (setIngestState Starting w) in
        let w := emit (Fetch (ingest_request c)) w in
        match net 0 with
        | FetchThrows m | BadBody m =>
            setIngestState IngestFailed
              (setIngestError
                 (Some (nullish m "An error occurred while ingesting data.")) w)
        | NotOk detail =>
            setIngestState IngestFailed
              (setIngestError
                 (Some (nullish detail "Failed to start data ingestion.")) w)
        | OkJob job =>
            pollJobStatus (fun n => net (S n)) cb c (job_id job)
              (setJobStatus (Some job) w)
        end
  | None =>
      setIngestState IngestFailed
        (setIngestError (Some "Save the connection before running ingestion.") w)
  end.

(** The effects of [n] rounds of the loop. *)
Definition polls (connectionId jobId : string) (n : nat) : list event :=
  List.concat (repeat [Sleep 750; Fetch (status_request connectionId jobId)] n).

End Handlers.

(** The requests among a list of effects. *)
Fixpoint requests (es : list event) : list request :=
  match es with
  | [] => []
  | Fetch r :: rest => r :: requests rest
  | _ :: rest => requests rest
  end.


(** The call of [onJobCompleted], when the prop is given. *)
Definition notification (cb : callback) (connectionId : string)
    (job : IngestionJobResponse) : list event :=
  match cb with
  | None => []
  | Some _ => [JobCompleted connectionId job]
  end.


(** The state a freshly mounted wizard has once a connection was saved. *)
Definition mounted (connectionId : option string) : wizard :=
  {| connectionId := connectionId; jobStatus := None; ingestState := Idle;
     ingestError := None; effects := [] |}.

End Wizard.

(* ================================================================== *)
(** * visualization-presets.ts: the chart recommender *)
(* ================================================================== *)

Module Presets.
Import JS Model.

Inductive VisualizationPresetType : Set := numeric | categorical | timeseries.

Definition type_eqb (a b : VisualizationPresetType) : bool :=
  match a, b with
  | numeric, numeric | categorical, categorical | timeseries, timeseries => true
  | _, _ => false
  end.

Record VisualizationPreset : Set := {
  id : string;
  label : string;
  description : string;
  fields : list string;
  type : VisualizationPresetType
}.

Definition createNumericPreset (field : string) (summary : NumericSummary)
  : VisualizationPreset :=
  {| id := "numeric-" ++ field;
     label := field ++ " distribution";
     description := "Visualize the numeric distribution using histogram or line chart.";
     fields := [field];
     type := numeric |}.

Definition createCategoricalPreset (fields : list string) : VisualizationPreset :=
  {| id := "categorical-" ++ join "-" fields;
     label := "Category frequency";
     description := "Create a bar chart showing the most common categorical values.";
     fields := fields;
     type := categorical |}.

Definition createTimeSeriesPreset (field : string) : VisualizationPreset :=
  {| id := "timeseries-" ++ field;
     label := field ++ " time series";
     description := "Plot the time-based trend for the selected field.";
     fields := [field];
     type := timeseries |}.

Section Recommender.
Context {rt : Runtime}.

Definition isLikelyTimestamp (v : value) : bool :=
  match v with
  | VString s => match Date_parse s with Some _ => true | None => false end
  | _ => false
  end.

Definition collectTimestampFields (summary : IngestionSummary) : list string :=
  match sample_records summary with
  | [] => []
  | record :: _ =>
      map fst (filter (fun kv => isLikelyTimestamp (snd kv)) (Object_entries record))
  end.

Definition collectCategoricalFields (summary : IngestionSummary) : list string :=
  match sample_records summary with
  | [] => []
  | record :: _ =>
      map fst
        (filter (fun kv => is_string (snd kv) && negb (isLikelyTimestamp (snd kv)))
           (Object_entries record))
  end.

Definition recommendPresets (summary : option IngestionSummary)
  : list VisualizationPreset :=
  match summary with
  | None => []
  | Some summary =>
      let presets :=
        map (fun kv => createNumericPreset (fst kv) (snd kv))
          (Object_entries (numeric_summary summary)) in
      let categorical := firstn 2 (collectCategoricalFields summary) in
      let presets :=
        if 0 <? List.length categorical
        then (presets ++ [createCategoricalPreset categorical])%list
        else presets in
      let temporal := collectTimestampFields summary in
      (presets ++ map createTimeSeriesPreset temporal)%list
  end.

(** The columns the recommender takes for categorical, listed in the order
    of [schema_fields] (the order the specification speaks of). *)
Definition categorical_in_schema_order (summary : IngestionSummary) : list string :=
  filter (fun column => existsb (String.eqb column) (collectCategoricalFields summary))
    (schema_fields summary).

End Recommender.

(** The presets of one type, in order. *)
Definition of_type (t : VisualizationPresetType) (ps : list VisualizationPreset)
  : list VisualizationPreset :=
  filter (fun p => type_eqb (type p) t) ps.

End Presets.

(* ================================================================== *)
(** * visualization-preview.tsx: one chart per preset *)
(* ================================================================== *)

Module Preview.
Import JS Model Presets.

(** A computation that returns or throws. *)
Inductive outcome (A : Type) : Type :=
| Returned (a : A)
| Thrown (error : string).
Arguments Returned {A} a.
Arguments Thrown {A} error.

Definition bind {A B} (m : outcome A) (k : A -> outcome B) : outcome B :=
  match m with
  | Returned a => k a
  | Thrown e => Thrown e
  end.

(** [xs.map(f)] where [f] may throw: the first exception ends the loop. *)
Fixpoint traverse {A B} (f : A -> outcome B) (xs : list A) : outcome (list B) :=
  match xs with
  | [] => Returned []
  | x :: rest =>
      bind (f x) (fun y => bind (traverse f rest) (fun ys => Returned (y :: ys)))
  end.

(** The charts the component builds, by the data handed to recharts. *)
Inductive chart : Type :=
| NumericLine (data : list (nat * number))
    (* points [{index, value}] *)
| CategoryPie (data : list (string * nat))
| CategoryBar (data : list (string * nat))
| TimeSeriesLine (data : list (object value)) (lines : list string).

(** What the component shows. *)
Inductive preview : Type :=
| NotEnoughData
    (* "Not enough data to generate a visualization." *)
| ChartPreview (c : chart).

(** [xs.map((x, index) => f(x, index))] *)
Fixpoint mapi_from {A B} (i : nat) (f : A -> nat -> B) (xs : list A) : list B :=
  match xs with
  | [] => []
  | x :: rest => f x i :: mapi_from (S i) f rest
  end.

(** [xs.filter(item => item !== null)] on the results of a [map]. *)
Fixpoint somes {A} (xs : list (option A)) : list A :=
  match xs with
  | [] => []
  | Some x :: rest => x :: somes rest
  | None :: rest => somes rest
  end.

(** [const [field] = preset.fields], tested for truthiness. *)
Definition truthy_field (preset : VisualizationPreset) : option string :=
  match fields preset with
  | [] => None
  | f :: _ => if String.eqb f "" then None else Some f
  end.

(** The time value of [item.date] when it is a [Date]. *)
Definition date_of (item : object value) : option Z :=
  match own item "date" with
  | Some (VDate t) => Some t
  | _ => None
  end.

Definition time_of (item : object value) : Z :=
  match date_of item with Some t => t | None => 0%Z end.

(** A stable sort by ascending time value: the order [Array.prototype.sort]
    gives with the comparator [a.date.getTime() - b.date.getTime()]. *)
Fixpoint insert_by_time (x : object value) (sorted : list (object value))
  : list (object value) :=
  match sorted with
  | [] => [x]
  | y :: rest =>
      if (time_of x <=? time_of y)%Z then x :: y :: rest
      else y :: insert_by_time x rest
  end.

Fixpoint sort_by_time (items : list (object value)) : list (object value) :=
  match items with
  | [] => []
  | x :: rest => insert_by_time x (sort_by_time rest)
  end.

Section Component.
Context {rt : Runtime}.

(** [parseDate] *)
Definition parseDate (v : value) : option Z :=
  match v with
  | VString s => Date_parse s
  | _ => None
  end.

(** The points of the numeric branch. *)
Definition numeric_points (summary : IngestionSummary) (field : string)
  : list (nat * number) :=
  somes
    (mapi_from 0
       (fun record index =>
          let raw := get record field in
          let value := match raw with
                       | VString s => VNumber (Number_of_string s)
                       | _ => raw
                       end in
          match value with
          | VNumber x => if PrimFloat.is_nan x then None else Some (index, x)
          | _ => None
          end)
       (sample_records summary)).

(** The label of one record in the categorical branch. *)
Definition category_label (preset : VisualizationPreset) (record : object value)
  : string :=
  join " · "
    (somes (map (fun fieldName =>
                   match get record fieldName with
                   | VString s => Some s
                   | _ => None
                   end)
              (fields preset))).

(** The [Map] of counts, in insertion order. *)
Definition category_counts (summary : IngestionSummary) (preset : VisualizationPreset)
  : object nat :=
  fold_left
    (fun counts record =>
       let label := category_label preset record in
       if String.eqb label "" then counts
       else assign counts label
              (match own counts label with Some n => n | None => 0 end + 1))
    (sample_records summary) [].

(** One row of the time-series branch, before sorting: [None] when the
    record has no date in [field] or no numeric field; otherwise
    [{ date, ...numericValues }], where a numeric field named "date"
    overwrites the parsed date. *)
Definition timeseries_row (field : string) (record : object value)
  : option (object value) :=
  let date := parseDate (get record field) in
  let numericFields :=
    filter (fun kv => is_number (snd kv)) (Object_entries record) in
  match date with
  | None => None
  | Some t =>
      if List.length numericFields =? 0 then None
      else
        let numericValues :=
          fold_left (fun acc kv => assign acc (fst kv) (snd kv)) numericFields [] in
        Some (spread [("date", VDate t)] numericValues)
  end.

(** The sorted and labelled rows: the comparator is called as soon as there
    are two rows, and [getTime] is not a function of a number. *)
Definition timeseries_data (summary : IngestionSummary) (field : string)
  : outcome (list (object value)) :=
  let rows := somes (map (timeseries_row field) (sample_records summary)) in
  if (2 <=? List.length rows)
     && existsb (fun item => match date_of item with Some _ => false | None => true end) rows
  then Thrown "TypeError: a.date.getTime is not a function"
  else
    Returned
      (map (fun item =>
              spread item [("dateLabel", VString (toLocaleString (get item "date")))])
         (sort_by_time rows)).

Definition timeseries_keys (summary : IngestionSummary) (data : list (object value))
  : list string :=
  filter (fun key => existsb (fun item => is_number (get item key)) data)
    (schema_fields summary).

(** The [useMemo] body of the component. *)
Definition chart_of (summary : option IngestionSummary) (preset : VisualizationPreset)
  : outcome (option chart) :=
  match summary with
  | None => Returned None
  | Some summary =>
      match type preset, truthy_field preset with
      | numeric, Some field =>
          let data := numeric_points summary field in
          if List.length data <? 2 then Returned None
          else Returned (Some (NumericLine data))
      | categorical, _ =>
          let data := Object_entries (category_counts summary preset) in
          if List.length data =? 0 then Returned None
          else if List.length data <=? 5 then Returned (Some (CategoryPie data))
          else Returned (Some (CategoryBar data))
      | timeseries, Some field =>
          bind (timeseries_data summary field) (fun data =>
            let numericKeys := timeseries_keys summary data in
            if (List.length data <? 2) || (List.length numericKeys =? 0) then Returned None
            else Returned (Some (TimeSeriesLine data (firstn 3 numericKeys))))
      | _, _ => Returned None
      end
  end.

Definition VisualizationPreview (summary : option IngestionSummary)
    (preset : VisualizationPreset) : outcome preview :=
  bind (chart_of summary preset) (fun chart =>
    match chart with
    | None => Returned NotEnoughData
    | Some c => Returned (ChartPreview c)
    end).

End Component.

End Preview.

(* ================================================================== *)
(** * connections-dashboard.tsx: the summary card *)
(* ================================================================== *)

Module Dashboard.
Import JS Model Presets Preview.

Record NumericDisplay : Set := {
  field : string;
  mean : option number;
  minimum : option number;
  maximum : option number;
  meanPercent : option number
}.

(** The callback of the [map] in [summarizeNumeric]. *)
Definition numeric_display (field : string) (stats : NumericSummary) : NumericDisplay :=
  match Model.minimum stats, Model.maximum stats, Model.mean stats with
  | Some lo, Some hi, Some avg =>
      if PrimFloat.eqb hi lo then
        {| field := field; mean := Model.mean stats;
           minimum := Model.minimum stats; maximum := Model.maximum stats;
           meanPercent := None |}
      else
        let range := PrimFloat.sub hi lo in
        let percent :=
          PrimFloat.mul (PrimFloat.div (PrimFloat.sub avg lo) range) 100%float in
        {| field := field; mean := Model.mean stats;
           minimum := Model.minimum stats; maximum := Model.maximum stats;
           meanPercent := Some (Math_min 100%float (Math_max 0%float percent)) |}
  | _, _, _ =>
      {| field := field; mean := Model.mean stats;
         minimum := Model.minimum stats; maximum := Model.maximum stats;
         meanPercent := None |}
  end.

Definition summarizeNumeric (summary : option IngestionSummary) : list NumericDisplay :=
  match summary with
  | None => []
  | Some summary =>
      map (fun kv => numeric_display (fst kv) (snd kv))
        (Object_entries (numeric_summary summary))
  end.

Record SampleTable : Set := {
  headers : list string;
  rows : list (list string)
}.

(** The view of the "Saved Connection" list. *)
Inductive saved_view : Type :=
| NoConnectionsSaved
| SavedList (items : list ConnectionResponse).

(** [[connections[0]].map(...)], or the placeholder on an empty list. *)
Definition saved_connections (connections : list ConnectionResponse) : saved_view :=
  match connections with
  | [] => NoConnectionsSaved
  | first :: _ => SavedList [first]
  end.

(** The connections the saved list shows. *)
Definition saved_items (connections : list ConnectionResponse)
  : list ConnectionResponse :=
  match saved_connections connections with
  | NoConnectionsSaved => []
  | SavedList items => items
  end.

Section Card.
Context {rt : Runtime}.

(** One cell of the sample table. *)
Definition sample_cell (record : object value) (header : string) : string :=
  match get record header with
  | VNull | VUndefined => "-"
  | VDate t => toISOString t
  | v => String_of v
  end.

Definition buildSampleRows (summary : option IngestionSummary) : SampleTable :=
  match summary with
  | None => {| headers := []; rows := [] |}
  | Some summary =>
      match sample_records summary with
      | [] => {| headers := []; rows := [] |}
      | first :: _ =>
          let headers := Object_keys first in
          {| headers := headers;
             rows := map (fun record => map (sample_cell record) headers)
                       (firstn 5 (sample_records summary)) |}
      end
  end.

(** The "Suggested visualizations" block: one list item per preset, each
    holding a [VisualizationPreview].  There is no error boundary: an
    exception thrown while one preview renders leaves none of them on
    screen. *)
Definition suggested_visualizations (summary : option IngestionSummary)
    (presets : list VisualizationPreset) : outcome (list (string * preview)) :=
  traverse
    (fun preset =>
       bind (VisualizationPreview summary preset) (fun shown =>
         Returned (Presets.id preset, shown)))
    presets.

End Card.

End Dashboard.

(* ================================================================== *)
(** * history-modal.tsx: the connection history *)
(* ================================================================== *)

Module History.
Import JS Model.

Inductive history_view : Type :=
| NoPreviousConnections
    (* "No previous connections found." *)
| NoMatchingConnections
    (* "No matching connections." *)
| HistoryList (items : list ConnectionResponse).

Section Modal.
Context {rt : Runtime}.

Definition matches (keyword : string) (connection : ConnectionResponse) : bool :=
  includes (toLowerCase (portal_name connection)) keyword
  || includes (toLowerCase (dataset_id connection)) keyword.

Definition filterConnections (connections : list ConnectionResponse)
    (filterText : string) : list ConnectionResponse :=
  if String.eqb (trim filterText) "" then connections
  else
    let keyword := toLowerCase filterText in
    filter (matches keyword) connections.

(** [connections.slice(1)] filtered: the [useMemo] of the modal. *)
Definition filtered (connections : list ConnectionResponse) (filterText : string)
  : list ConnectionResponse :=
  filterConnections (skipn 1 connections) filterText.

(** The body of the modal; [None] when the modal is closed. *)
Definition HistoryModal (open : bool) (connections : list ConnectionResponse)
    (filterText : string) : option history_view :=
  if open then
    Some (if List.length connections <=? 1 then NoPreviousConnections
          else if List.length (filtered connections filterText) =? 0
               then NoMatchingConnections
               else HistoryList (filtered connections filterText))
  else None.

(** The connections the open modal lists. *)
Definition history_items (connections : list ConnectionResponse)
    (filterText : string) : list ConnectionResponse :=
  match HistoryModal true connections filterText with
  | Some (HistoryList items) => items
  | _ => []
  end.

End Modal.

End History.

(* ================================================================== *)
(** * The job state machine of the orchestrator *)
(* ================================================================== *)

Module Orchestrator.
Import Model.

(** What the orchestrator does to a job. *)
Inductive job_event : Set :=
| WorkerPickup
| StagesSucceed
| StageFails.

(** Modelled from the spec: the orchestrator that owns the job records is
    not among the sources; these are the transitions of section 4.5,
    [pending -> running] on worker pickup and [running -> completed] or
    [running -> failed] at the end of the pipeline, and no other. *)
Definition transition (s : JobStatus) (e : job_event) : option JobStatus :=
  match s, e with
  | Pending, WorkerPickup => Some Running
  | Running, StagesSucceed => Some Completed
  | Running, StageFails => Some Failed
  | _, _ => None
  end.

(** Modelled from the spec: an event with no transition from the current
    state leaves the job as it is. *)
Definition apply_event (s : JobStatus) (e : job_event) : JobStatus :=
  match transition s e with
  | Some s' => s'
  | None => s
  end.

(** Modelled from the spec: the statuses a poller may observe over the life
    of a job that starts as [s], one snapshot after each event. *)
Fixpoint observed (s : JobStatus) (es : list job_event) : list JobStatus :=
  match es with
  | [] => [s]
  | e :: rest => s :: observed (apply_event s e) rest
  end.

(** The position of a status in the order
    [pending -> running -> {completed | failed}]. *)
Definition rank (s : JobStatus) : nat :=
  match s with
  | Pending => 0
  | Running => 1
  | Completed | Failed => 2
  end.

End Orchestrator.

(* ================================================================== *)
(** * A concrete host and sample data, for evaluating the model *)
(* ================================================================== *)

Module Samples.
Import JS Model Wizard.

(** Lower-casing of the ASCII letters. *)
Definition ascii_lower (c : ascii) : ascii :=
  let n := nat_of_ascii c in
  if (65 <=? n) && (n <=? 90) then ascii_of_nat (n + 32) else c.

Fixpoint lower (s : string) : string :=
  match s with
  | EmptyString => EmptyString
  | String c rest => String (ascii_lower c) (lower rest)
  end.

(** Dropping leading blanks (enough to tell a blank filter from another). *)
Fixpoint drop_blanks (s : string) : string :=
  match s with
  | String c rest => if Ascii.eqb c " "%char then drop_blanks rest else s
  | EmptyString => EmptyString
  end.

(** A host that knows two timestamps. *)
Definition parse_date (s : string) : option Z :=
  if String.eqb s "2024-01-01" then Some 1704067200000%Z
  else if String.eqb s "2024-01-02" then Some 1704153600000%Z
  else None.

Definition show (v : value) : string :=
  match v with
  | VUndefined => "undefined"
  | VNull => "null"
  | VBool true => "true"
  | VBool false => "false"
  | VNumber _ => "number"
  | VString s => s
  | VDate _ => "date"
  | VObject tag => tag
  end.

#[export] Instance host : Runtime := {|
  API_BASE_URL := "http://localhost:8000";
  toLowerCase := lower;
  trim := drop_blanks;
  Date_parse := parse_date;
  Number_of_string := fun _ => PrimFloat.nan;
  String_of := show;
  toISOString := fun _ => "iso";
  toLocaleString := show;
  Object_prototype := fun _ => None
|}.

(** A summary with the given columns, samples and numeric statistics. *)
Definition summary_of (columns : list string) (samples : list (object value))
    (stats : object NumericSummary) : IngestionSummary :=
  {| record_count := None; schema_fields := columns; sample_records := samples;
     numeric_summary := stats; schema_details := []; categorical_summary := [];
     descriptive_stats := []; numeric_histograms := []; visualizations := None |}.

Definition job (s : JobStatus) (msg : option string) : IngestionJobResponse :=
  {| job_id := "job-1"; connection_id := "conn-1"; status := s;
     created_at := "2024-01-01"; started_at := None; finished_at := None;
     message := msg; errors := []; summary := None |}.

Definition connection (i portal dataset : string) : ConnectionResponse :=
  {| id := i; portal_name := portal; dataset_id := dataset;
     last_ingested_at := None; last_ingestion_summary := None |}.

Definition three_connections : list ConnectionResponse :=
  [connection "c3" "Seoul Data Portal" "traffic-speeds";
   connection "c2" "data.go.kr" "air-quality";
   connection "c1" "Busan Open Data" "Traffic-Counts"].

(** A server whose job is still running at every poll. *)
Definition always_running : network := fun _ => OkJob (job Running None).

(** A server whose job is pending at the first poll and has failed, with no
    message, at the second. *)
Definition fails_at_second_poll : network :=
  fun n => match n with
           | 0 => OkJob (job Pending None)
           | _ => OkJob (job Failed None)
           end.


(** Three text columns whose order in the first sample record is not the
    order of [schema_fields]. *)
Definition places : IngestionSummary :=
  summary_of ["name"; "region"; "city"]
    [[("city", VString "Seoul"); ("region", VString "KR"); ("name", VString "A")]]
    [].

(** A feed with a numeric column named "date", a timestamp column and a
    numeric column that is missing from the second record. *)
Definition dated : IngestionSummary :=
  summary_of ["date"; "ts"; "w"]
    [[("date", VNumber 20240101%float); ("ts", VString "2024-01-01");
      ("w", VNumber 1%float)];
     [("date", VNumber 20240102%float); ("ts", VString "2024-01-02")]]
    [("date", {| mean := Some 20240101.5%float; minimum := Some 20240101%float;
                 maximum := Some 20240102%float |});
     ("w", {| mean := Some 1%float; minimum := Some 1%float;
              maximum := Some 1%float |})].

(** Two dated readings of one numeric column, the later one first. *)
Definition trend : IngestionSummary :=
  summary_of ["ts"; "v"]
    [[("ts", VString "2024-01-02"); ("v", VNumber 2%float)];
     [("ts", VString "2024-01-01"); ("v", VNumber 1%float)]]
    [("v", {| mean := Some 1.5%float; minimum := Some 1%float;
              maximum := Some 2%float |})].

(** Statistics of a column that spans the whole range of finite numbers:
    [-2^1023], [2^1023] and a mean of [2^1023]. *)
Definition wide : NumericSummary :=
  {| mean := Some 0x1p1023%float; minimum := Some (-0x1p1023)%float;
     maximum := Some 0x1p1023%float |}.

End Samples.

(* ================================================================== *)
(** * Requests that are never answered *)
(* ================================================================== *)

Module Await.

(** What an [await] of a request comes to: an answer, or nothing at all.
    The handlers pass [fetch] no abort signal and set no timeout of their
    own, so a request that is never answered is awaited for good. *)
Inductive awaited (A : Type) : Type :=
| Settles (answer : A)
| Hangs.
Arguments Settles {A} answer.
Arguments Hangs {A}.

End Await.

(** The two ingestion handlers of [Wizard] over a network that may leave a
    request unanswered: the same code, with the case of an [await] that
    never settles, where the handler stays as it was when it issued the
    request. *)
Module Unanswered.
Import JS Model Wizard Await.

(** The network: what becomes of the n-th request of a run. *)
Definition network : Type := nat -> awaited reply.

Section Handlers.
Context {rt : Runtime}.

Fixpoint poll_loop (net : network) (cb : callback) (connectionId jobId : string)
    (remaining attempt : nat) (w : wizard) : wizard :=
  match remaining with
  | O =>
      setIngestState Timeout
        (setIngestError (Some "Ingestion did not finish in the expected time.") w)
  | S remaining' =>
      let w := emit (Sleep 750) w in
      let w := emit (Fetch (status_request connectionId jobId)) w in
      match net attempt with
      | Hangs => w
      | Settles (FetchThrows _) | Settles (BadBody _) =>
          setIngestState IngestFailed
            (setIngestError (Some "Error while checking ingestion status.") w)
      | Settles (NotOk _) =>
          setIngestState IngestFailed
            (setIngestError (Some "Unable to check ingestion status.") w)
      | Settles (OkJob data) =>
          let w := setJobStatus (Some data) w in
          match status data with
          | Completed =>
              notify cb connectionId data (setIngestState IngestCompleted w)
          | Failed =>
              notify cb connectionId data
                (setIngestState IngestFailed
                   (setIngestError
                      (Some (nullish (message data) "Data ingestion failed.")) w))
          | Pending | Running =>
              poll_loop net cb connectionId jobId remaining' (S attempt) w
          end
      end
  end.

Definition pollJobStatus (net : network) (cb : callback)
    (connectionId jobId : string) (w : wizard) : wizard :=
  poll_loop net cb connectionId jobId 12 0 (setIngestState Polling w).

Definition handleIngestion (net : network) (cb : callback) (w : wizard) : wizard :=
  match connectionId w with
  | Some c =>
      if String.eqb c "" then
        setIngestState IngestFailed
          (setIngestError (Some "Save the connection before running ingestion.") w)
      else
        let w := setIngestError None (setIngestState Starting w) in
        let w := emit (Fetch (ingest_request c)) w in
        match net 0 with
        | Hangs => w
        | Settles (FetchThrows m) | Settles (BadBody m) =>
            setIngestState IngestFailed
              (setIngestError
                 (Some (nullish m "An error occurred while ingesting data.")) w)
        | Settles (NotOk detail) =>
            setIngestState IngestFailed
              (setIngestError
                 (Some (nullish detail "Failed to start data ingestion.")) w)
        | Settles (OkJob job) =>
            pollJobStatus (fun n => net (S n)) cb c (job_id job)
              (setJobStatus (Some job) w)
        end
  | None =>
      setIngestState IngestFailed
        (setIngestError (Some "Save the connection before running ingestion.") w)
  end.

End Handlers.

End Unanswered.

(* ================================================================== *)
(** * connection-wizard.tsx: the form, the connection test and the save *)
(* ================================================================== *)

Module Form.
Import JS Model Wizard Await.

Record FormParameter : Set := {
  name : string;
  value : string
}.

Record FormState : Set := {
  portalName : string;
  datasetId : string;
  baseUrl : string;
  path : string;
  apiKeyName : string;
  apiKeyValue : string;
  dataFormat : string;
  parameters : list FormParameter
}.

Definition initialParameter : FormParameter := {| name := ""; value := "" |}.

Definition initialState : FormState :=
  {| portalName := ""; datasetId := ""; baseUrl := ""; path := "";
     apiKeyName := ""; apiKeyValue := ""; dataFormat := "auto";
     parameters := [initialParameter] |}.

(** What [buildPayload] returns. *)
Record Payload : Set := {
  portal_name : string;
  dataset_id : string;
  base_url : string;
  payload_path : string;
  api_key_name : option string;
  api_key_value : option string;
  data_format : string;
  query_parameters : list FormParameter
}.

(** The body of a connection test (type [ConnectionTestResponse]). *)
Record ConnectionTestResponse : Set := {
  success : bool;
  status_code : option number;
  reason : option string;
  content_type : option string;
  detected_format : string;
  test_record_count : option number;
  test_schema_fields : list string;
  preview : option string;
  preview_truncated : bool;
  elapsed_ms : number;
  request_url : option string;
  error : option string;
  raw_response : option string
}.

Inductive TestStatus : Set := TestIdle | TestLoading | TestSuccess | TestError.
Inductive SaveState : Set := SaveIdle | Saving | Saved | SaveFailed.

(** One POST of the form, with its JSON body. *)
Inductive form_event : Set :=
| Posted (url : string) (body : Payload)
| ConnectionSaved (id : string).

(** How a [fetch] of the form ends. *)
Inductive response (A : Type) : Type :=
| Rejects (error_message : option string)
    (* fetch or [response.json()] rejects; the message of an [Error] *)
| Refused (detail : option string)
    (* [response.ok] is false; [detail] of the parsed error body, if any *)
| Answers (data : A).
Arguments Rejects {A} error_message.
Arguments Refused {A} detail.
Arguments Answers {A} data.


(** The state of the wizard component: the form, the connection test, the
    save, and the ingestion state of [Wizard]. *)
Record panel : Type := {
  form : FormState;
  test_status : TestStatus;
  result : option ConnectionTestResponse;
  errorMessage : option string;
  saveState : SaveState;
  saveError : option string;
  ingestion : wizard;
  posts : list form_event
}.

(** [a || null] on a string. *)
Definition or_null (s : string) : option string :=
  if String.eqb s "" then None else Some s.

(** [xs.filter((x, idx) => keep(x, idx))] *)
Fixpoint filteri_from {A} (i : nat) (keep : A -> nat -> bool) (xs : list A) : list A :=
  match xs with
  | [] => []
  | x :: rest =>
      if keep x i then x :: filteri_from (S i) keep rest
      else filteri_from (S i) keep rest
  end.

(** The keys [handleFieldChange] is called with. *)
Inductive field_key : Set :=
| KPortalName | KDatasetId | KBaseUrl | KPath | KApiKeyName | KApiKeyValue
| KDataFormat.


Definition set_field (f : FormState) (k : field_key) (v : string) : FormState :=
  {| portalName := match k with KPortalName => v | _ => portalName f end;
     datasetId := match k with KDatasetId => v | _ => datasetId f end;
     baseUrl := match k with KBaseUrl => v | _ => baseUrl f end;
     path := match k with KPath => v | _ => path f end;
     apiKeyName := match k with KApiKeyName => v | _ => apiKeyName f end;
     apiKeyValue := match k with KApiKeyValue => v | _ => apiKeyValue f end;
     dataFormat := match k with KDataFormat => v | _ => dataFormat f end;
     parameters := parameters f |}.

Definition set_parameters (f : FormState) (ps : list FormParameter) : FormState :=
  {| portalName := portalName f; datasetId := datasetId f; baseUrl := baseUrl f;
     path := path f; apiKeyName := apiKeyName f; apiKeyValue := apiKeyValue f;
     dataFormat := dataFormat f; parameters := ps |}.


Definition handleFieldChange (k : field_key) (v : string) (f : FormState) : FormState :=
  set_field f k v.


Definition addParameterRow (f : FormState) : FormState :=
  set_parameters f (parameters f ++ [initialParameter])%list.

Definition removeParameterRow (index : nat) (f : FormState) : FormState :=
  set_parameters f
    (filteri_from 0 (fun _ idx => negb (idx =? index)) (parameters f)).

Section Handlers.
Context {rt : Runtime}.

(** [buildPayload] *)
Definition buildPayload (f : FormState) : Payload :=
  {| portal_name := portalName f;
     dataset_id := datasetId f;
     base_url := baseUrl f;
     payload_path := path f;
     api_key_name := or_null (apiKeyName f);
     api_key_value := or_null (apiKeyValue f);
     data_format := dataFormat f;
     query_parameters :=
       map (fun param => {| name := trim (name param); value := trim (value param) |})
         (filter (fun param => negb (String.eqb (trim (name param)) "")
                               && negb (String.eqb (trim (value param)) ""))
            (parameters f)) |}.

Definition with_test (s : TestStatus) (r : option ConnectionTestResponse)
    (e : option string) (p : panel) : panel :=
  {| form := form p; test_status := s; result := r; errorMessage := e;
     saveState := saveState p; saveError := saveError p;
     ingestion := ingestion p; posts := posts p |}.


Definition post (e : form_event) (p : panel) : panel :=
  {| form := form p; test_status := test_status p; result := result p;
     errorMessage := errorMessage p; saveState := saveState p;
     saveError := saveError p; ingestion := ingestion p;
     posts := (posts p ++ [e])%list |}.

(** [resetResult], the [onChange] of the form: each piece of state that is
    not at its initial value is set back to it. *)
Definition resetResult (p : panel) : panel :=
  let w := ingestion p in
  let w := match connectionId w with
           | Some c => if String.eqb c "" then w
                       else {| connectionId := None; jobStatus := jobStatus w;
                               ingestState := ingestState w;
                               ingestError := ingestError w; effects := effects w |}
           | None => w
           end in
  let w := match jobStatus w with
           | Some _ => setJobStatus None w
           | None => w
           end in
  let w := match ingestState w with
           | Idle => w
           | _ => setIngestState Idle w
           end in
  let w := match ingestError w with
           | Some e => if String.eqb e "" then w else setIngestError None w
           | None => w
           end in
  {| form := form p;
     test_status := TestIdle;
     result := None;
     errorMessage := match errorMessage p with
                     | Some e => if String.eqb e "" then Some e else None
                     | None => None
                     end;
     saveState := SaveIdle;
     saveError := match saveError p with
                  | Some e => if String.eqb e "" then Some e else None
                  | None => None
                  end;
     ingestion := w;
     posts := posts p |}.

(** [handleSubmit]: the connection test.  While the request is not
    answered the status stays "loading". *)
Definition handleSubmit (reply : awaited (response ConnectionTestResponse))
    (p : panel) : panel :=
  let p := with_test TestLoading (result p) None p in
  let p := post (Posted (API_BASE_URL ++ "/connections/test") (buildPayload (form p))) p in
  match reply with
  | Hangs => p
  | Settles (Refused detail) =>
      with_test TestError (result p)
        (Some (nullish detail "Connection test failed.")) p
  | Settles (Answers data) =>
      if success data then with_test TestSuccess (Some data) (errorMessage p) p
      else with_test TestError (Some data)
             (Some (nullish (error data)
                      (nullish (reason data) "Connection test failed."))) p
  | Settles (Rejects m) =>
      with_test TestError (result p)
        (Some (nullish m "An unexpected error occurred.")) p
  end.



(** [disabled] of the "Run Data Ingestion" button. *)
Definition ingestion_disabled (w : wizard) : bool :=
  falsy (connectionId w)
  || match ingestState w with
     | Starting | Polling => true
     | _ => false
     end.

End Handlers.

(** A freshly mounted component. *)
Definition fresh : panel :=
  {| form := initialState; test_status := TestIdle; result := None;
     errorMessage := None; saveState := SaveIdle; saveError := None;
     ingestion := mounted None; posts := [] |}.

End Form.

(* ================================================================== *)
(** * ai-insights-panel.tsx: asking a question about a dataset *)
(* ================================================================== *)

Module Insights.
Import JS Model Wizard Await.

Record insights : Type := {
  question : string;
  answer : string;
  loading : bool;
  error : option string;
  sent : list request
}.

(** How the [fetch] of the panel ends. *)
Inductive analysis_reply : Set :=
| AnalysisRejects (error_message : option string)
| AnalysisRefused (detail : option string)
| AnalysisAnswers (answer : option string).

Definition update (a : string) (l : bool) (e : option string) (s : insights)
  : insights :=
  {| question := question s; answer := a; loading := l; error := e;
     sent := sent s |}.

Section Handlers.
Context {rt : Runtime}.

Definition analysis_request (connectionId question : string) : request :=
  {| req_method := POST;
     req_url := API_BASE_URL ++ "/connections/" ++ connectionId ++ "/analysis";
     req_headers := [("Content-Type", "application/json")];
     req_body := Some [("question", JString question)] |}.

(** [handleSubmit] of the panel; the [finally] block ends every path that
    entered the [try] and left it, which a request that is never answered
    does not. *)
Definition handleSubmit (connectionId : option string)
    (reply : awaited analysis_reply) (s : insights) : insights :=
  if falsy connectionId || String.eqb (trim (question s)) "" then
    update (answer s) (loading s)
      (Some "Please enter a question before submitting.") s
  else
    match connectionId with
    | None => s
    | Some c =>
        let s := update "" true None s in
        let s := {| question := question s; answer := answer s;
                    loading := loading s; error := error s;
                    sent := (sent s ++ [analysis_request c (question s)])%list |} in
        match reply with
        | Hangs => s
        | Settles reply =>
            let s :=
              match reply with
              | AnalysisRefused detail =>
                  update (answer s) (loading s)
                    (Some (nullish detail "Failed to request AI analysis.")) s
              | AnalysisAnswers a =>
                  update (nullish a "") (loading s) (error s) s
              | AnalysisRejects m =>
                  update (answer s) (loading s)
                    (Some (nullish m "An unexpected error occurred.")) s
              end in
            update (answer s) false (error s) s
        end
    end.

End Handlers.

End Insights.

(* ================================================================== *)
(** * page.tsx: loading the saved connections *)
(* ================================================================== *)

Module Home.
Import JS Model Wizard Await.

Record home : Type := {
  connections : list ConnectionResponse;
  selectedId : option string;
  isLoading : bool;
  errorMessage : option string;
  showHistory : bool;
  fetched : list request
}.

(** How the [fetch] of the list ends. *)
Inductive list_reply : Type :=
| ListRejects (error_message : option string)
| ListRefused
| ListAnswers (items : list ConnectionResponse).

Section Handlers.
Context {rt : Runtime}.

Definition connections_request : request :=
  {| req_method := GET; req_url := API_BASE_URL ++ "/connections";
     req_headers := []; req_body := None |}.

(** [items.find((item) => item.id === selectedId)] *)
Definition find_id (items : list ConnectionResponse) (selectedId : option string)
  : option ConnectionResponse :=
  match selectedId with
  | None => None
  | Some wanted => find (fun item => String.eqb (id item) wanted) items
  end.

(** [fetchConnections]: [closure] is the [selectedId] the callback was
    created with, which [useCallback] renews when the state changes.  The
    [finally] block runs once the request is answered. *)
Definition fetchConnections (closure : option string) (reply : awaited list_reply)
    (h : home) : home :=
  let sent := (fetched h ++ [connections_request])%list in
  match reply with
  | Hangs =>
      {| connections := connections h; selectedId := selectedId h;
         isLoading := true; errorMessage := None;
         showHistory := showHistory h; fetched := sent |}
  | Settles (ListAnswers items) =>
      {| connections := items;
         selectedId :=
           match items, find_id items closure with
           | first :: _, None => Some (id first)
           | _, _ => selectedId h
           end;
         isLoading := false; errorMessage := None;
         showHistory := showHistory h; fetched := sent |}
  | Settles ListRefused =>
      {| connections := connections h; selectedId := selectedId h;
         isLoading := false;
         errorMessage := Some "Failed to retrieve saved connections.";
         showHistory := showHistory h; fetched := sent |}
  | Settles (ListRejects m) =>
      {| connections := connections h; selectedId := selectedId h;
         isLoading := false;
         errorMessage := Some (nullish m "Error while loading saved connections.");
         showHistory := showHistory h; fetched := sent |}
  end.

(** The [onSelect] of the history modal, followed by its [onClose]. *)
Definition select_from_history (chosen : string) (h : home) : home :=
  {| connections := connections h; selectedId := Some chosen;
     isLoading := isLoading h; errorMessage := errorMessage h;
     showHistory := false; fetched := fetched h |}.

End Handlers.

End Home.

(* ================================================================== *)
(** * connections-dashboard.tsx and data-analysis-modal.tsx: what is shown *)
(* ================================================================== *)

Module Views.
Import JS Model.

(** [connections.find((item) => item.id === selectedId) ?? null] of the
    dashboard. *)
Definition selected (connections : list ConnectionResponse)
    (selectedId : option string) : option ConnectionResponse :=
  match selectedId with
  | None => None
  | Some wanted => find (fun item => String.eqb (id item) wanted) connections
  end.

(** [selected?.last_ingestion_summary ?? null] *)
Definition selected_summary (connections : list ConnectionResponse)
    (selectedId : option string) : option IngestionSummary :=
  match selected connections selectedId with
  | Some c => last_ingestion_summary c
  | None => None
  end.

(** [connections.length > 1 && <button>View Connection History</button>] *)
Definition history_button (connections : list ConnectionResponse) : bool :=
  1 <? List.length connections.

Section Tables.
Context {rt : Runtime}.


End Tables.

End Views.

(* ================================================================== *)
(** * Measures of a run and further sample data *)
(* ================================================================== *)

Module Fixtures.
Import JS Model Wizard Preview Samples.

(** The time a run spends in [setTimeout], in milliseconds. *)
Fixpoint slept (es : list event) : nat :=
  match es with
  | [] => 0
  | Sleep ms :: rest => ms + slept rest
  | _ :: rest => slept rest
  end.

(** A server that answers the first poll and then goes away. *)
Definition drops_at_second_poll : network :=
  fun n => match n with
           | 0 => OkJob (job Pending None)
           | _ => NotOk None
           end.

(** A server that refuses to start the ingestion. *)
Definition refuses_to_start : network := fun _ => NotOk (Some "Connection not found").

(** A server that starts the job and reports it completed at the first poll. *)
Definition completes_at_once : network :=
  fun n => match n with
           | 0 => OkJob (job Pending None)
           | _ => OkJob (job Completed None)
           end.

(** The order of the rows of a time-series chart: by the time of their date. *)
Definition by_time (a b : object value) : Prop := (time_of a <= time_of b)%Z.

End Fixtures.

(* ================================================================== *)
(** * Properties of the polling loop and of the ingestion request *)
(* ================================================================== *)

Section WizardFacts.
Import JS Model Wizard.
Context {rt : Runtime}.
Variables (net : network) (cb : callback) (connectionId jobId : string).

Lemma polls_S (n : nat) :
  polls connectionId jobId (S n) =
  (Sleep 750 :: Fetch (status_request connectionId jobId)
     :: polls connectionId jobId n)%list.
Proof. reflexivity. Qed.

Lemma requests_app (xs ys : list event) :
  requests (xs ++ ys) = (requests xs ++ requests ys)%list.
Proof.
  induction xs as [|[ms|r|c j] xs IH]; simpl; congruence.
Qed.

Lemma requests_polls (n : nat) :
  requests (polls connectionId jobId n) = repeat (status_request connectionId jobId) n.
Proof.
  induction n as [|n IH].
  - reflexivity.
  - rewrite polls_S. simpl. now rewrite IH.
Qed.

Lemma requests_notification (job : IngestionJobResponse) :
  requests (notification cb connectionId job) = [].
Proof. now destruct cb. Qed.

(** The effects of a notification are the logged call, whatever the handler
    does. *)
Lemma notify_effects (job : IngestionJobResponse) (w : wizard) :
  effects (notify cb connectionId job w)
  = (effects w ++ notification cb connectionId job)%list.
Proof.
  unfold notify, notification. destruct cb as [handler|]; simpl.
  - now destruct (handler connectionId job).
  - now rewrite app_nil_r.
Qed.


Lemma notify_jobStatus (job : IngestionJobResponse) (w : wizard) :
  jobStatus (notify cb connectionId job w) = jobStatus w.
Proof.
  unfold notify. destruct cb as [handler|]; simpl; [|easy].
  now destruct (handler connectionId job).
Qed.

(** A run of the loop over non-terminal snapshots only: every remaining
    round sleeps and polls, then the timeout is declared. *)
Lemma poll_loop_exhausts (remaining : nat) :
  forall (attempt : nat) (w : wizard),
    (forall i, attempt <= i < attempt + remaining ->
       exists job, net i = OkJob job /\ is_terminal (status job) = false) ->
    let w' := poll_loop net cb connectionId jobId remaining attempt w in
    effects w' = (effects w ++ polls connectionId jobId remaining)%list
    /\ ingestState w' = Timeout
    /\ ingestError w' = Some "Ingestion did not finish in the expected time.".
Proof.
  induction remaining as [|remaining IH]; intros attempt w Hnet; simpl.
  - now rewrite app_nil_r.
  - destruct (Hnet attempt ltac:(lia)) as (job & -> & Hjob).
    destruct (status job) eqn:Hs; try discriminate Hjob.
    all: edestruct (IH (S attempt)) as (He & Hst & Herr);
      [ intros i Hi; apply Hnet; lia
      | rewrite He, Hst, Herr; simpl; rewrite polls_S, <- !app_assoc; simpl; auto ].
Qed.


(** Whatever the network answers, a run of the loop is some rounds of
    sleeping and polling, at most as many as remain, followed by at most
    the call of the completion handler. *)
Lemma poll_loop_shape (remaining : nat) :
  forall (attempt : nat) (w : wizard),
    let w' := poll_loop net cb connectionId jobId remaining attempt w in
    exists (k : nat) (tail : list event),
      k <= remaining
      /\ effects w' = (effects w ++ polls connectionId jobId k ++ tail)%list
      /\ requests tail = []
      /\ (ingestState w' = Timeout -> k = remaining /\ tail = []).
Proof.
  induction remaining as [|remaining IH]; intros attempt w; simpl.
  - exists 0, []. simpl. rewrite app_nil_r. auto.
  - destruct (net attempt) as [m|d|m|job] eqn:Hnet.
    1-3: exists 1, []; simpl; rewrite <- app_assoc; simpl;
      (split; [lia|split; [reflexivity|split; [reflexivity|discriminate]]]).
    destruct (status job) eqn:Hs.
    1-2: destruct (IH (S attempt)
            (setJobStatus (Some job)
               (emit (Fetch (status_request connectionId jobId))
                  (emit (Sleep 750) w))))
          as (k & tail & Hk & He & Hreq & Ht);
      exists (S k), tail; rewrite He, polls_S; simpl; rewrite <- !app_assoc; simpl;
      (split; [lia|split; [reflexivity|split; [exact Hreq|]]]);
      intros Hto; destruct (Ht Hto); subst; auto.
    all: exists 1, (notification cb connectionId job);
      rewrite notify_effects; simpl; rewrite <- !app_assoc; simpl;
      (split; [lia|split; [reflexivity|split; [apply requests_notification|]]]);
      unfold notify; destruct cb as [handler|]; simpl;
      try destruct (handler connectionId job); simpl; discriminate.
Qed.

End WizardFacts.

Section PollingClaims.
Import JS Model Wizard.
Context {rt : Runtime}.

(** C1.  When every status GET succeeds with a snapshot that is neither
    completed nor failed, [pollJobStatus] sleeps 750 ms and then GETs
    /connections/{id}/ingest/{job_id}, twelve times over and nothing else,
    and ends in the local timeout state. *)
Theorem pollJobStatus_times_out_after_12_polls
    (net : network) (cb : callback) (connectionId jobId : string) (w : wizard) :
  (forall i, i < 12 ->
     exists job, net i = OkJob job /\ is_terminal (status job) = false) ->
  let w' := pollJobStatus net cb connectionId jobId w in
  let poll :=
    {| req_method := GET;
       req_url := API_BASE_URL ++ "/connections/" ++ connectionId ++ "/ingest/" ++ jobId;
       req_headers := [];
       req_body := None |} in
  effects w' =
    (effects w ++ List.concat (repeat [Sleep 750; Fetch poll] 12))%list
  /\ requests (skipn (List.length (effects w)) (effects w')) = repeat poll 12
  /\ ingestState w' = Timeout
  /\ ingestError w' = Some "Ingestion did not finish in the expected time.".
Proof.
  intros Hnet w' poll.
  destruct (poll_loop_exhausts net cb connectionId jobId 12 0
              (setIngestState Polling w)) as (He & Hst & Herr).
  { intros i Hi. apply Hnet. lia. }
  change poll with (status_request connectionId jobId).
  subst w'. unfold pollJobStatus.
  split; [exact He|]. split; [|split; [exact Hst|exact Herr]].
  rewrite He. change (effects (setIngestState Polling w)) with (effects w).
  rewrite skipn_app, skipn_all, Nat.sub_diag. cbn [skipn app].
  apply (requests_polls connectionId jobId 12).
Qed.

(** C4.  Whatever the network answers and whatever the completion handler
    does, the requests [pollJobStatus] issues are GETs of the job-status
    endpoint, at most twelve of them; a run that ends in the timeout state
    did its twelve rounds and nothing after them. *)
Theorem pollJobStatus_only_reads_the_job_status
    (net : network) (cb : callback) (connectionId jobId : string) (w : wizard) :
  let w' := pollJobStatus net cb connectionId jobId w in
  exists issued : list event,
    effects w' = (effects w ++ issued)%list
    /\ Forall (fun r => r = status_request connectionId jobId
                        /\ req_method r = GET /\ req_body r = None)
         (requests issued)
    /\ List.length (requests issued) <= 12
    /\ (ingestState w' = Timeout ->
        issued = List.concat
                   (repeat [Sleep 750; Fetch (status_request connectionId jobId)] 12)).
Proof.
  intros w'.
  destruct (poll_loop_shape net cb connectionId jobId 12 0
              (setIngestState Polling w)) as (k & tail & Hk & He & Hreq & Hto).
  fold (pollJobStatus net cb connectionId jobId w) in He, Hto.
  fold w' in He, Hto. simpl effects in He.
  exists (polls connectionId jobId k ++ tail)%list.
  rewrite requests_app, Hreq, app_nil_r, requests_polls.
  split; [exact He|split; [|split]].
  - apply Forall_forall. intros r Hr. apply repeat_spec in Hr. now subst.
  - now rewrite repeat_length.
  - intros Ht. destruct (Hto Ht) as (-> & ->). now rewrite app_nil_r.
Qed.




(** C6.  [handleIngestion] without a connection id (null or empty) issues
    no request and fails locally with an error text; with one, the first
    request it issues is the POST of [{force_refresh: false}] to
    /connections/{connectionId}/ingest, and every later request of the run
    is a GET, so that the POST is the only ingestion-start request. *)
Theorem handleIngestion_posts_only_with_a_connection
    (net : network) (cb : callback) (w : wizard) :
  let w' := handleIngestion net cb w in
  (falsy (connectionId w) = true ->
     effects w' = effects w
     /\ ingestState w' = IngestFailed
     /\ ingestError w' = Some "Save the connection before running ingestion.")
  /\ (forall c, connectionId w = Some c -> c <> "" ->
      exists later : list event,
        effects w' =
          (effects w
             ++ Fetch {| req_method := POST;
                         req_url := API_BASE_URL ++ "/connections/" ++ c ++ "/ingest";
                         req_headers := [("Content-Type", "application/json")];
                         req_body := Some [("force_refresh", JBool false)] |}
             :: later)%list
        /\ Forall (fun r => req_method r = GET) (requests later)).
Proof.
  intros w'. subst w'. unfold handleIngestion. split.
  - unfold falsy. destruct (connectionId w) as [c|]; [|now auto].
    intros ->. now auto.
  - intros c -> Hc. apply String.eqb_neq in Hc. rewrite Hc.
    fold (ingest_request c).
    destruct (net 0) as [m|d|m|job].
    1-3: exists []; simpl; repeat split; auto.
    destruct (poll_loop_shape (fun n => net (S n)) cb c (job_id job) 12 0
                (setIngestState Polling
                   (setJobStatus (Some job)
                      (emit (Fetch (ingest_request c))
                         (setIngestError None (setIngestState Starting w))))))
      as (k & tail & _ & He & Hreq & _).
    exists (polls c (job_id job) k ++ tail)%list.
    unfold pollJobStatus. rewrite He. simpl. rewrite <- app_assoc.
    split; [reflexivity|].
    rewrite requests_app, Hreq, app_nil_r, requests_polls.
    apply Forall_forall. intros r Hr. apply repeat_spec in Hr. now subst.
Qed.

End PollingClaims.

Section PollingRuns.
Import JS Model Wizard Samples.

Lemma pollJobStatus_times_out_witness :
  (forall i, i < 12 ->
     exists j, always_running i = OkJob j /\ is_terminal (status j) = false)
  /\ ingestState (pollJobStatus always_running None "conn-1" "job-1"
                    (mounted (Some "conn-1"))) = Timeout.
Proof.
  assert (H : forall i, i < 12 ->
     exists j, always_running i = OkJob j /\ is_terminal (status j) = false).
  { intros i _. exists (job Running None). split; reflexivity. }
  split; [exact H|].
  exact (proj1 (proj2 (proj2
    (pollJobStatus_times_out_after_12_polls always_running None "conn-1" "job-1"
       (mounted (Some "conn-1")) H)))).
Defined.



Lemma pollJobStatus_only_reads_witness :
  exists issued : list event,
    effects (pollJobStatus fails_at_second_poll None "conn-1" "job-1"
               (mounted (Some "conn-1"))) = issued
    /\ Forall (fun r => r = status_request "conn-1" "job-1"
                        /\ req_method r = GET /\ req_body r = None)
         (requests issued)
    /\ List.length (requests issued) <= 12.
Proof.
  destruct (pollJobStatus_only_reads_the_job_status fails_at_second_poll None
              "conn-1" "job-1" (mounted (Some "conn-1")))
    as (issued & He & Hall & Hlen & _).
  exists issued. split; [exact He|]. split; [exact Hall|exact Hlen].
Defined.

Lemma handleIngestion_witness :
  exists later : list event,
    effects (handleIngestion always_running None (mounted (Some "conn-1")))
    = (Fetch {| req_method := POST;
                req_url := "http://localhost:8000/connections/conn-1/ingest";
                req_headers := [("Content-Type", "application/json")];
                req_body := Some [("force_refresh", JBool false)] |}
         :: later)%list
    /\ Forall (fun r => req_method r = GET) (requests later).
Proof.
  refine (proj2 (handleIngestion_posts_only_with_a_connection always_running None
                   (mounted (Some "conn-1"))) "conn-1" eq_refl _).
  discriminate.
Defined.

End PollingRuns.

(* ================================================================== *)
(** * Properties of the recommender and of the chart preview *)
(* ================================================================== *)

Section PresetFacts.
Import JS Model Presets Preview.
Context {rt : Runtime}.

Lemma of_type_app (t : VisualizationPresetType) (ps qs : list VisualizationPreset) :
  of_type t (ps ++ qs) = (of_type t ps ++ of_type t qs)%list.
Proof. apply filter_app. Qed.

Lemma of_type_numeric_presets (t : VisualizationPresetType)
    (stats : object NumericSummary) :
  of_type t (map (fun kv => createNumericPreset (fst kv) (snd kv)) stats)
  = if type_eqb numeric t
    then map (fun kv => createNumericPreset (fst kv) (snd kv)) stats
    else [].
Proof.
  induction stats as [|kv stats IH]; simpl.
  - now destruct t.
  - rewrite IH. now destruct t.
Qed.

Lemma of_type_timeseries_presets (t : VisualizationPresetType)
    (columns : list string) :
  of_type t (map createTimeSeriesPreset columns)
  = if type_eqb timeseries t then map createTimeSeriesPreset columns else [].
Proof.
  induction columns as [|c columns IH]; simpl.
  - now destruct t.
  - rewrite IH. now destruct t.
Qed.

(** The three groups of [recommendPresets], in the order it pushes them. *)
Lemma recommendPresets_groups (summary : IngestionSummary) :
  recommendPresets (Some summary)
  = (map (fun kv => createNumericPreset (fst kv) (snd kv)) (numeric_summary summary)
     ++ match firstn 2 (collectCategoricalFields summary) with
        | [] => []
        | columns => [createCategoricalPreset columns]
        end
     ++ map createTimeSeriesPreset (collectTimestampFields summary))%list.
Proof.
  unfold recommendPresets, Object_entries.
  destruct (firstn 2 (collectCategoricalFields summary)) as [|c cs]; simpl.
  - reflexivity.
  - now rewrite <- app_assoc.
Qed.

Lemma of_type_recommendPresets (t : VisualizationPresetType)
    (summary : IngestionSummary) :
  of_type t (recommendPresets (Some summary))
  = match t with
    | numeric =>
        map (fun kv => createNumericPreset (fst kv) (snd kv)) (numeric_summary summary)
    | categorical =>
        match firstn 2 (collectCategoricalFields summary) with
        | [] => []
        | columns => [createCategoricalPreset columns]
        end
    | timeseries => map createTimeSeriesPreset (collectTimestampFields summary)
    end.
Proof.
  rewrite recommendPresets_groups, !of_type_app,
    of_type_numeric_presets, of_type_timeseries_presets.
  destruct t; destruct (firstn 2 (collectCategoricalFields summary));
    unfold of_type; simpl; now rewrite ?app_nil_r.
Qed.

(** Membership in the result of a [filter] followed by [map fst]. *)
Lemma in_keys_filter {A} (p : string * A -> bool) (o : object A) (k : string) :
  In k (map fst (filter p o)) <-> exists v, In (k, v) o /\ p (k, v) = true.
Proof.
  rewrite in_map_iff. split.
  - intros ([k' v] & <- & Hin). apply filter_In in Hin. now exists v.
  - intros (v & Hin & Hp). exists (k, v). split; [reflexivity|].
    now apply filter_In.
Qed.

Lemma isLikelyTimestamp_spec (v : value) :
  isLikelyTimestamp v = true <-> exists text, v = VString text /\ Date_parse text <> None.
Proof.
  split.
  - destruct v as [| |b|x|s|t|tag]; simpl; try discriminate.
    destruct (Date_parse s) eqn:Hs; [|discriminate].
    intros _. exists s. split; [reflexivity|congruence].
  - intros (text & -> & Hp). simpl. now destruct (Date_parse text).
Qed.

Lemma categorical_value_spec (v : value) :
  is_string v && negb (isLikelyTimestamp v) = true
  <-> exists text, v = VString text /\ Date_parse text = None.
Proof.
  split.
  - destruct v as [| |b|x|s|t|tag]; simpl; try discriminate.
    destruct (Date_parse s) eqn:Hs; [discriminate|].
    intros _. now exists s.
  - intros (text & -> & Hp). simpl. now rewrite Hp.
Qed.

Lemma collectTimestampFields_spec (summary : IngestionSummary) (column : string) :
  In column (collectTimestampFields summary)
  <-> exists record rest text,
        sample_records summary = record :: rest
        /\ In (column, VString text) record /\ Date_parse text <> None.
Proof.
  unfold collectTimestampFields, Object_entries.
  destruct (sample_records summary) as [|record rest].
  - split; [easy|]. now intros (? & ? & ? & ? & _).
  - rewrite in_keys_filter. split.
    + intros (v & Hin & Hp). simpl in Hp. apply isLikelyTimestamp_spec in Hp.
      destruct Hp as (text & -> & Hp). now exists record, rest, text.
    + intros (r & rs & text & Heq & Hin & Hp). injection Heq as <- <-.
      exists (VString text). split; [exact Hin|]. cbn [snd].
      apply isLikelyTimestamp_spec. now exists text.
Qed.

Lemma collectCategoricalFields_spec (summary : IngestionSummary) (column : string) :
  In column (collectCategoricalFields summary)
  <-> exists record rest text,
        sample_records summary = record :: rest
        /\ In (column, VString text) record /\ Date_parse text = None.
Proof.
  unfold collectCategoricalFields, Object_entries.
  destruct (sample_records summary) as [|record rest].
  - split; [easy|]. now intros (? & ? & ? & ? & _).
  - rewrite in_keys_filter. split.
    + intros (v & Hin & Hp). simpl in Hp. apply categorical_value_spec in Hp.
      destruct Hp as (text & -> & Hp). now exists record, rest, text.
    + intros (r & rs & text & Heq & Hin & Hp). injection Heq as <- <-.
      exists (VString text). split; [exact Hin|]. cbn [snd].
      apply categorical_value_spec. now exists text.
Qed.

Lemma firstn_incl {A} (n : nat) (xs : list A) : incl (firstn n xs) xs.
Proof.
  revert n. induction xs as [|x xs IH]; intros [|n]; simpl; try easy.
  intros y [<-|Hy]; [now left|right; now apply (IH n)].
Qed.

(** The lines of a time-series chart: at most three columns of
    [schema_fields], each numeric in some row of the chart. *)
Lemma timeseries_chart_lines (summary : IngestionSummary) (column : string) (c : chart) :
  chart_of (Some summary) (createTimeSeriesPreset column) = Returned (Some c) ->
  exists data,
    timeseries_data summary column = Returned data
    /\ c = TimeSeriesLine data (firstn 3 (timeseries_keys summary data))
    /\ 2 <= List.length data.
Proof.
  unfold chart_of, truthy_field. simpl.
  destruct (String.eqb column ""); [discriminate|].
  destruct (timeseries_data summary column) as [data|e]; simpl; [|discriminate].
  destruct (List.length data <? 2) eqn:Hlen; simpl; [discriminate|].
  destruct (List.length (timeseries_keys summary data) =? 0); [discriminate|].
  intros [= <-]. exists data. repeat split. apply Nat.ltb_ge in Hlen. lia.
Qed.

Lemma timeseries_keys_spec (summary : IngestionSummary) (data : list (object value))
    (key : string) :
  In key (timeseries_keys summary data)
  <-> In key (schema_fields summary)
      /\ exists item, In item data /\ is_number (get item key) = true.
Proof.
  unfold timeseries_keys. rewrite filter_In, existsb_exists. reflexivity.
Qed.

End PresetFacts.

Section RecommenderClaims.
Import JS Model Presets Preview.
Context {rt : Runtime}.

(** The columns the two collectors take, read off the first sample record. *)
Lemma collectCategoricalFields_eq (summary : IngestionSummary) :
  collectCategoricalFields summary
  = map fst
      (filter (fun kv => match snd kv with
                         | VString text =>
                             match Date_parse text with
                             | None => true
                             | Some _ => false
                             end
                         | _ => false
                         end)
         match sample_records summary with
         | record :: _ => record
         | [] => []
         end).
Proof.
  unfold collectCategoricalFields, Object_entries.
  destruct (sample_records summary) as [|record rest]; [reflexivity|].
  f_equal. apply filter_ext. intros [k v]. simpl.
  destruct v as [| |b|x|s|t|tag]; simpl; try reflexivity.
  now destruct (Date_parse s).
Qed.

Lemma collectTimestampFields_eq (summary : IngestionSummary) :
  collectTimestampFields summary
  = map fst
      (filter (fun kv => match snd kv with
                         | VString text =>
                             match Date_parse text with
                             | Some _ => true
                             | None => false
                             end
                         | _ => false
                         end)
         match sample_records summary with
         | record :: _ => record
         | [] => []
         end).
Proof.
  unfold collectTimestampFields, Object_entries.
  destruct (sample_records summary) as [|record rest]; reflexivity.
Qed.

(** C2, as amended.  For every summary, [recommendPresets] yields, in this
    order: one distribution preset per column of [numeric_summary], on that
    column alone; one frequency preset, on the first one or two columns of
    the first sample record (in the key order of that record) whose value
    is a string that does not parse as a timestamp, when there is such a
    column and none otherwise; and one time-series preset, on that column
    alone, per column of the first sample record whose value is a string
    that parses as a timestamp; and nothing else.  The pairing with numeric
    columns is made when the chart is drawn: the lines of a time-series
    chart are the first three columns of [schema_fields], in that order,
    that hold a number in some row of the chart. *)
Theorem recommendPresets_policy (summary : IngestionSummary) :
  let presets := recommendPresets (Some summary) in
  let first_record :=
    match sample_records summary with
    | record :: _ => record
    | [] => []
    end in
  let text_columns :=
    firstn 2
      (map fst
         (filter (fun kv => match snd kv with
                            | VString text =>
                                match Date_parse text with
                                | None => true
                                | Some _ => false
                                end
                            | _ => false
                            end) first_record)) in
  let time_columns :=
    map fst
      (filter (fun kv => match snd kv with
                         | VString text =>
                             match Date_parse text with
                             | Some _ => true
                             | None => false
                             end
                         | _ => false
                         end) first_record) in
  map (fun preset => (type preset, fields preset)) presets
  = (map (fun kv => (numeric, [fst kv])) (numeric_summary summary)
     ++ match text_columns with
        | [] => []
        | _ => [(categorical, text_columns)]
        end
     ++ map (fun column => (timeseries, [column])) time_columns)%list
  /\ map fields (of_type numeric presets)
     = map (fun kv => [fst kv]) (numeric_summary summary)
  /\ List.length (of_type numeric presets) = List.length (numeric_summary summary)
  /\ of_type categorical presets
     = match text_columns with
       | [] => []
       | _ => [createCategoricalPreset text_columns]
       end
  /\ map fields (of_type categorical presets)
     = match text_columns with
       | [] => []
       | _ => [text_columns]
       end
  /\ List.length text_columns <= 2
  /\ (text_columns = []
      <-> forall column text, In (column, VString text) first_record ->
            Date_parse text <> None)
  /\ map fields (of_type timeseries presets)
     = map (fun column => [column]) time_columns
  /\ (forall column,
        In column time_columns
        <-> exists record rest text,
              sample_records summary = record :: rest
              /\ In (column, VString text) record /\ Date_parse text <> None)
  /\ (forall preset c,
        In preset presets -> type preset = timeseries ->
        chart_of (Some summary) preset = Returned (Some c) ->
        exists data,
          c = TimeSeriesLine data
                (firstn 3
                   (filter (fun key =>
                              existsb (fun row => is_number (get row key)) data)
                      (schema_fields summary)))
          /\ 2 <= List.length data).
Proof.
  intros presets first_record text_columns time_columns.
  subst presets first_record text_columns time_columns.
  rewrite <- collectCategoricalFields_eq, <- collectTimestampFields_eq.
  rewrite !of_type_recommendPresets.
  split; [|split; [|split; [|split; [|split; [|split; [|split; [|split; [|split]]]]]]]].
  - rewrite recommendPresets_groups, !map_app, !map_map.
    f_equal. f_equal.
    now destruct (firstn 2 (collectCategoricalFields summary)).
  - rewrite !map_map. reflexivity.
  - now rewrite length_map.
  - now destruct (firstn 2 (collectCategoricalFields summary)).
  - now destruct (firstn 2 (collectCategoricalFields summary)).
  - apply firstn_le_length.
  - split.
    + intros Hnone column text Hin Hparse.
      assert (Hcol : In column (collectCategoricalFields summary)).
      { apply collectCategoricalFields_spec.
        destruct (sample_records summary) as [|record rest]; [destruct Hin|].
        exists record, rest, text.
        split; [reflexivity|].
        split; [exact Hin|].
        destruct (Date_parse text); [congruence|reflexivity]. }
      destruct (collectCategoricalFields summary); [destruct Hcol|discriminate Hnone].
    + intros Hall.
      destruct (collectCategoricalFields summary) as [|column others] eqn:Hcols;
        [reflexivity|].
      assert (Hcol : In column (collectCategoricalFields summary))
        by (rewrite Hcols; now left).
      apply collectCategoricalFields_spec in Hcol.
      destruct Hcol as (record & rest & text & Hrec & Hin & Hparse).
      rewrite Hrec in Hall. now destruct (Hall column text Hin).
  - rewrite !map_map. reflexivity.
  - apply collectTimestampFields_spec.
  - intros preset c Hin Htype Hc.
    assert (Hts : In preset (of_type timeseries (recommendPresets (Some summary)))).
    { apply filter_In. split; [exact Hin|]. now rewrite Htype. }
    rewrite of_type_recommendPresets in Hts. apply in_map_iff in Hts.
    destruct Hts as (column & <- & _).
    destruct (timeseries_chart_lines summary column c Hc) as (data & _ & -> & Hlen).
    exists data. split; [reflexivity|exact Hlen].
Qed.

End RecommenderClaims.

Section RecommenderRuns.
Import JS Model Presets Preview Dashboard Samples.

(** C2, as stated, fails: the frequency preset follows the key order of the
    first sample record, not the order of [schema_fields]. *)
Lemma recommendPresets_ignores_schema_order :
  of_type categorical (recommendPresets (Some places))
  = [createCategoricalPreset ["city"; "region"]]
  /\ firstn 2 (categorical_in_schema_order places) = ["name"; "region"]
  /\ of_type categorical (recommendPresets (Some places))
     <> [createCategoricalPreset (firstn 2 (categorical_in_schema_order places))].
Proof.
  repeat split. discriminate.
Qed.

Lemma recommendPresets_witness :
  exists data,
    TimeSeriesLine
      [[("date", VDate 1704067200000); ("v", VNumber 1%float);
        ("dateLabel", VString "date")];
       [("date", VDate 1704153600000); ("v", VNumber 2%float);
        ("dateLabel", VString "date")]]
      ["v"]
    = TimeSeriesLine data
        (firstn 3
           (filter (fun key => existsb (fun row => is_number (get row key)) data)
              (schema_fields trend)))
    /\ 2 <= List.length data.
Proof.
  refine (proj2 (proj2 (proj2 (proj2 (proj2 (proj2 (proj2 (proj2 (proj2
    (recommendPresets_policy trend))))))))) (createTimeSeriesPreset "ts") _ _ _ _).
  - vm_compute. right. now left.
  - reflexivity.
  - reflexivity.
Defined.

End RecommenderRuns.

Section PreviewFacts.
Import JS Model Presets Preview Dashboard.
Context {rt : Runtime}.

Lemma own_assign {A} (o : object A) (k k' : string) (v : A) :
  own (assign o k v) k' = if String.eqb k k' then Some v else own o k'.
Proof.
  induction o as [|[k0 v0] o IH]; simpl.
  - reflexivity.
  - destruct (String.eqb_spec k0 k) as [->|Hk]; simpl.
    + destruct (String.eqb k k'); reflexivity.
    + rewrite IH. destruct (String.eqb_spec k0 k') as [->|Hk'].
      * destruct (String.eqb_spec k k') as [->|_]; [congruence|reflexivity].
      * reflexivity.
Qed.

(** Assigning properties of other names leaves a property as it was. *)
Lemma own_fold_assign {A} (p : object A) (k : string) :
  (forall kv, In kv p -> fst kv <> k) ->
  forall o : object A,
    own (fold_left (fun acc kv => assign acc (fst kv) (snd kv)) p o) k = own o k.
Proof.
  induction p as [|[k0 v0] p IH]; intros Hp o; simpl.
  - reflexivity.
  - rewrite IH by (intros kv Hkv; apply Hp; now right).
    rewrite own_assign.
    destruct (String.eqb_spec k0 k) as [->|_]; [|reflexivity].
    exfalso. apply (Hp (k, v0)); [now left|reflexivity].
Qed.

Lemma own_In {A} (o : object A) (k : string) (v : A) :
  In (k, v) o -> exists v', own o k = Some v'.
Proof.
  induction o as [|[k0 v0] o IH]; simpl; [easy|].
  intros [[= -> ->]|Hin].
  - rewrite String.eqb_refl. now exists v.
  - destruct (String.eqb k0 k); [now exists v0|now apply IH].
Qed.

(** A record without a numeric field named "date" gives a row whose [date]
    is the parsed date. *)
Lemma timeseries_row_keeps_date (column : string) (record row : object value) :
  (forall x, ~ In ("date", VNumber x) record) ->
  timeseries_row column record = Some row ->
  exists t, date_of row = Some t.
Proof.
  intros Hrecord. unfold timeseries_row, Object_entries.
  destruct (parseDate (get record column)) as [t|]; [|discriminate].
  destruct (List.length (filter (fun kv => is_number (snd kv)) record) =? 0);
    [discriminate|].
  intros [= <-]. exists t. unfold date_of, spread.
  rewrite own_fold_assign; [simpl; reflexivity|].
  intros [k v] Hkv Hk. simpl in Hk. subst k.
  destruct (own (fold_left (fun acc kv => assign acc (fst kv) (snd kv))
                   (filter (fun kv => is_number (snd kv)) record) []) "date")
    as [v'|] eqn:Hown.
  - rewrite own_fold_assign in Hown; [discriminate|].
    intros [k0 v0] Hin Hk0. simpl in Hk0. subst k0.
    apply filter_In in Hin. destruct Hin as (Hin & Hnum). simpl in Hnum.
    destruct v0 as [| |b|x|s|d|tag]; try discriminate.
    exact (Hrecord x Hin).
  - destruct (own_In _ _ _ Hkv) as (v' & Hv'). congruence.
Qed.

Lemma in_somes_map {A B} (f : A -> option B) (xs : list A) (y : B) :
  In y (somes (map f xs)) -> exists x, In x xs /\ f x = Some y.
Proof.
  induction xs as [|x xs IH]; simpl; [easy|].
  destruct (f x) as [y'|] eqn:Hfx; simpl.
  - intros [<-|Hin]; [now exists x; auto|].
    destruct (IH Hin) as (x' & Hx' & Hf). exists x'. auto.
  - intros Hin. destruct (IH Hin) as (x' & Hx' & Hf). exists x'. auto.
Qed.

(** The time-series branch throws only over a sample record that has a
    numeric field named "date". *)
Lemma timeseries_data_returns (summary : IngestionSummary) (column : string) :
  (forall record x, In record (sample_records summary) ->
     ~ In ("date", VNumber x) record) ->
  exists data, timeseries_data summary column = Returned data.
Proof.
  intros Hdate. unfold timeseries_data.
  destruct (existsb _ (somes (map (timeseries_row column) (sample_records summary))))
    eqn:Hex.
  - apply existsb_exists in Hex. destruct Hex as (row & Hin & Hrow).
    apply in_somes_map in Hin. destruct Hin as (record & Hrec & Hmk).
    destruct (timeseries_row_keeps_date column record row (fun x => Hdate record x Hrec) Hmk)
      as (t & Ht).
    rewrite Ht in Hrow. discriminate.
  - rewrite andb_false_r. eexists. reflexivity.
Qed.

Lemma VisualizationPreview_returns (summary : IngestionSummary)
    (preset : VisualizationPreset) :
  (forall record x, In record (sample_records summary) ->
     ~ In ("date", VNumber x) record) ->
  exists shown, VisualizationPreview (Some summary) preset = Returned shown.
Proof.
  intros Hdate. unfold VisualizationPreview, chart_of.
  destruct (type preset), (truthy_field preset) as [column|]; simpl.
  all: try (destruct (timeseries_data_returns summary column Hdate) as (data & ->);
            simpl).
  all: repeat match goal with
         | |- context [if ?b then _ else _] => destruct b; simpl
         end; eexists; reflexivity.
Qed.

(** Rendering a list of presets, none of which throws, renders each on its
    own. *)
Lemma traverse_returns {A B} (f : A -> outcome B) (xs : list A) :
  (forall x, In x xs -> exists y, f x = Returned y) ->
  exists ys, traverse f xs = Returned ys
             /\ Forall2 (fun x y => f x = Returned y) xs ys.
Proof.
  induction xs as [|x xs IH]; intros Hxs; simpl.
  - exists []. split; [reflexivity|constructor].
  - destruct (Hxs x (or_introl eq_refl)) as (y & Hy).
    destruct IH as (ys & Hys & Hall); [intros x' Hx'; apply Hxs; now right|].
    exists (y :: ys). rewrite Hy, Hys. simpl. split; [reflexivity|].
    now constructor.
Qed.

(** One preset that throws leaves nothing of the list. *)
Lemma traverse_throws {A B} (f : A -> outcome B) (xs : list A) (x : A) (e : string) :
  In x xs -> f x = Thrown e -> exists e', traverse f xs = Thrown e'.
Proof.
  induction xs as [|x0 xs IH]; simpl; [easy|].
  intros [->|Hin] Hx.
  - rewrite Hx. simpl. now exists e.
  - destruct (f x0) as [y|e0]; simpl; [|now exists e0].
    destruct (IH Hin Hx) as (e' & ->). simpl. now exists e'.
Qed.

(** A numeric preset over fewer than two numeric sample values, and a
    time-series preset over fewer than two rows or without a numeric key,
    show no chart. *)
Lemma numeric_preset_without_data (summary : IngestionSummary)
    (preset : VisualizationPreset) (column : string) :
  type preset = numeric ->
  truthy_field preset = Some column ->
  List.length (numeric_points summary column) < 2 ->
  VisualizationPreview (Some summary) preset = Returned NotEnoughData.
Proof.
  intros Ht Hf Hlen. unfold VisualizationPreview, chart_of. rewrite Ht, Hf.
  apply Nat.ltb_lt in Hlen. now rewrite Hlen.
Qed.

Lemma timeseries_preset_without_data (summary : IngestionSummary)
    (preset : VisualizationPreset) (column : string) (data : list (object value)) :
  type preset = timeseries ->
  truthy_field preset = Some column ->
  timeseries_data summary column = Returned data ->
  List.length data < 2 \/ timeseries_keys summary data = [] ->
  VisualizationPreview (Some summary) preset = Returned NotEnoughData.
Proof.
  intros Ht Hf Hdata Hlen. unfold VisualizationPreview, chart_of.
  rewrite Ht, Hf, Hdata. simpl. destruct Hlen as [Hlen|Hkeys].
  - apply Nat.ltb_lt in Hlen. now rewrite Hlen.
  - rewrite Hkeys. simpl. now rewrite orb_true_r.
Qed.

(** X24.  Over samples without a numeric field named "date", the block of
    suggested visualizations shows, for each preset, what the preview of
    that preset alone shows. *)
Lemma suggested_visualizations_pointwise (summary : IngestionSummary)
    (presets : list VisualizationPreset) :
  (forall record x, In record (sample_records summary) ->
     ~ In ("date", VNumber x) record) ->
  exists shown,
    suggested_visualizations (Some summary) presets = Returned shown
    /\ Forall2 (fun preset item =>
                  fst item = Presets.id preset
                  /\ VisualizationPreview (Some summary) preset = Returned (snd item))
         presets shown.
Proof.
  intros Hdate. unfold suggested_visualizations.
  destruct (traverse_returns
              (fun preset =>
                 bind (VisualizationPreview (Some summary) preset)
                   (fun shown => Returned (Presets.id preset, shown)))
              presets) as (shown & Hshown & Hall).
  - intros preset _.
    destruct (VisualizationPreview_returns summary preset Hdate) as (v & ->).
    simpl. eexists. reflexivity.
  - exists shown. split; [exact Hshown|].
    eapply Forall2_impl; [|exact Hall]. intros preset [i v]. simpl.
    destruct (VisualizationPreview (Some summary) preset) as [v'|e]; simpl;
      [|discriminate].
    now intros [= <- <-].
Qed.

End PreviewFacts.

Section PreviewRuns.
Import JS Model Presets Preview Dashboard Samples.

(** C5, that each preset is drawn on its own and a preset without enough
    data costs no other preset its chart, fails on the feed [dated], which
    has a numeric column named "date" beside its timestamp column: alone, the distribution preset of "date"
    shows its chart and that of "w" shows none for want of data, but the
    time-series preset throws in its sort comparator (the spread of the
    numeric values has overwritten the parsed date), and the exception
    leaves none of the suggested visualizations on screen. *)
Lemma suggested_visualizations_lost_to_one_preset :
  map Presets.id (recommendPresets (Some dated))
  = ["numeric-date"; "numeric-w"; "timeseries-ts"]
  /\ map (VisualizationPreview (Some dated)) (recommendPresets (Some dated))
     = [Returned (ChartPreview
                    (NumericLine [(0, 20240101%float); (1, 20240102%float)]));
        Returned NotEnoughData;
        Thrown "TypeError: a.date.getTime is not a function"]
  /\ suggested_visualizations (Some dated) (recommendPresets (Some dated))
     = Thrown "TypeError: a.date.getTime is not a function".
Proof.
  repeat split; vm_compute; reflexivity.
Qed.

(** The feed [trend] has no such column: both of its presets are drawn, the
    rows of the time series sorted by date. *)
Example suggested_visualizations_trend :
  suggested_visualizations (Some trend) (recommendPresets (Some trend))
  = Returned
      [("numeric-v", ChartPreview (NumericLine [(0, 2%float); (1, 1%float)]));
       ("timeseries-ts",
        ChartPreview
          (TimeSeriesLine
             [[("date", VDate 1704067200000); ("v", VNumber 1%float);
               ("dateLabel", VString "date")];
              [("date", VDate 1704153600000); ("v", VNumber 2%float);
               ("dateLabel", VString "date")]]
             ["v"]))].
Proof. vm_compute. reflexivity. Qed.

End PreviewRuns.

(* ================================================================== *)
(** * Properties of the dashboard helpers and of the history modal *)
(* ================================================================== *)

Section DashboardClaims.
Import JS Model Dashboard.
Context {rt : Runtime}.

(** [summarizeNumeric] keeps one entry per column, with the statistics it
    was given. *)
Lemma summarizeNumeric_entries (summary : IngestionSummary) :
  map field (summarizeNumeric (Some summary)) = Object_keys (numeric_summary summary)
  /\ Forall2 (fun kv shown =>
                mean shown = Model.mean (snd kv)
                /\ minimum shown = Model.minimum (snd kv)
                /\ maximum shown = Model.maximum (snd kv))
       (numeric_summary summary) (summarizeNumeric (Some summary)).
Proof.
  unfold summarizeNumeric, Object_entries, Object_keys.
  induction (numeric_summary summary) as [|[k stats] l [IH1 IH2]]; simpl.
  - split; constructor.
  - split.
    + f_equal; [|exact IH1]. unfold numeric_display.
      destruct (Model.minimum stats), (Model.maximum stats), (Model.mean stats);
        try reflexivity.
      now destruct (PrimFloat.eqb _ _).
    + constructor; [|exact IH2]. unfold numeric_display. simpl.
      destruct (Model.minimum stats), (Model.maximum stats), (Model.mean stats);
        try (repeat split; reflexivity).
      now destruct (PrimFloat.eqb _ _).
Qed.

(** X23.  The mean marker is left out exactly when a statistic is null or the
    maximum [===] the minimum. *)
Lemma meanPercent_null_iff (column : string) (stats : NumericSummary) :
  meanPercent (numeric_display column stats) = None
  <-> Model.mean stats = None \/ Model.minimum stats = None
      \/ Model.maximum stats = None
      \/ exists lo hi, Model.minimum stats = Some lo /\ Model.maximum stats = Some hi
                       /\ PrimFloat.eqb hi lo = true.
Proof.
  unfold numeric_display.
  destruct (Model.minimum stats) as [lo|], (Model.maximum stats) as [hi|],
    (Model.mean stats) as [avg|]; simpl; try tauto.
  destruct (PrimFloat.eqb hi lo) eqn:Heq; simpl.
  - split; [|reflexivity]. intros _. right. right. right. now exists lo, hi.
  - split; [discriminate|].
    intros [H|[H|[H|(lo' & hi' & [= <-] & [= <-] & H)]]]; congruence.
Qed.

(** [SFcompare], the comparison behind [<?] and [<=?], is antisymmetric and
    is defined on every pair without a NaN. *)
Lemma SFcompare_antisym (x y : spec_float) (c : comparison) :
  SFcompare x y = Some c -> SFcompare y x = Some (CompOpp c).
Proof.
  destruct x as [s1|s1| |s1 m1 e1], y as [s2|s2| |s2 m2 e2]; simpl;
    try discriminate; intros [= <-]; try (destruct s1; reflexivity);
    try (destruct s2; reflexivity); try (destruct s1, s2; reflexivity).
  destruct s1, s2; simpl; try reflexivity.
  all: rewrite (Z.compare_antisym e1 e2); destruct (e1 ?= e2)%Z; simpl;
    try reflexivity.
  all: pose proof (Pos.compare_cont_antisym m1 m2 Eq) as H; simpl in H;
    rewrite <- H; now destruct (Pos.compare_cont Eq m1 m2).
Qed.

Lemma SFcompare_total (x y : spec_float) :
  SFcompare x y = None -> x = S754_nan \/ y = S754_nan.
Proof.
  destruct x as [s1|s1| |s1 m1 e1], y as [s2|s2| |s2 m2 e2]; simpl;
    try discriminate; auto.
Qed.

Lemma is_nan_Prim2SF (x : float) :
  PrimFloat.is_nan x = false -> Prim2SF x <> S754_nan.
Proof.
  unfold PrimFloat.is_nan. rewrite FloatAxioms.eqb_spec. intros H Hnan.
  rewrite Hnan in H. discriminate H.
Qed.

Lemma ltb_false_leb (x y : float) :
  PrimFloat.is_nan x = false -> PrimFloat.is_nan y = false ->
  PrimFloat.ltb x y = false -> PrimFloat.leb y x = true.
Proof.
  intros Hx Hy. rewrite FloatAxioms.ltb_spec, FloatAxioms.leb_spec. unfold SFltb, SFleb.
  destruct (SFcompare (Prim2SF x) (Prim2SF y)) as [c|] eqn:Hc.
  - rewrite (SFcompare_antisym _ _ _ Hc). now destruct c.
  - destruct (SFcompare_total _ _ Hc) as [H|H];
      [now apply is_nan_Prim2SF in Hx|now apply is_nan_Prim2SF in Hy].
Qed.

Lemma ltb_true_leb (x y : float) :
  PrimFloat.ltb x y = true -> PrimFloat.leb x y = true.
Proof.
  rewrite FloatAxioms.ltb_spec, FloatAxioms.leb_spec. unfold SFltb, SFleb.
  now destruct (SFcompare (Prim2SF x) (Prim2SF y)) as [[| |]|].
Qed.

Lemma Math_max_0 (p : float) :
  PrimFloat.is_nan p = false ->
  Math_max 0%float p = 0%float \/ (Math_max 0%float p = p /\ PrimFloat.ltb 0%float p = true).
Proof.
  intros Hp. unfold Math_max. rewrite Hp.
  change (PrimFloat.is_nan 0%float) with false. simpl.
  destruct (PrimFloat.ltb 0%float p); [now right|].
  destruct (PrimFloat.ltb p 0%float); [now left|].
  change (PrimFloat.get_sign 0%float) with false. now left.
Qed.

(** The clamp [Math.min(100, Math.max(0, p))] bounds every [p] that is a
    number. *)
Lemma clamp_in_range (p : float) :
  PrimFloat.is_nan p = false ->
  PrimFloat.leb 0%float (Math_min 100%float (Math_max 0%float p)) = true
  /\ PrimFloat.leb (Math_min 100%float (Math_max 0%float p)) 100%float = true.
Proof.
  intros Hp. destruct (Math_max_0 p Hp) as [->|(-> & Hpos)].
  - split; reflexivity.
  - unfold Math_min. rewrite Hp. change (PrimFloat.is_nan 100%float) with false. simpl.
    destruct (PrimFloat.ltb 100%float p) eqn:Hhi; [split; reflexivity|].
    assert (Hle : PrimFloat.leb p 100%float = true) by (now apply ltb_false_leb).
    assert (H0 : PrimFloat.leb 0%float p = true) by (now apply ltb_true_leb).
    destruct (PrimFloat.ltb p 100%float); [now split|].
    change (PrimFloat.get_sign 100%float) with false. now split.
Qed.

Lemma clamp_nan (p : float) :
  PrimFloat.is_nan p = true -> Math_min 100%float (Math_max 0%float p) = PrimFloat.nan.
Proof.
  intros Hp. unfold Math_max. rewrite Hp, orb_true_r. reflexivity.
Qed.

(** X22.  The mean marker, when it is there and is a number, lies within
    [0, 100], wherever the mean lies. *)
Lemma meanPercent_in_range (column : string) (stats : NumericSummary) (r : number) :
  meanPercent (numeric_display column stats) = Some r ->
  PrimFloat.is_nan r = false ->
  PrimFloat.leb 0%float r = true /\ PrimFloat.leb r 100%float = true.
Proof.
  unfold numeric_display.
  destruct (Model.minimum stats) as [lo|], (Model.maximum stats) as [hi|],
    (Model.mean stats) as [avg|]; simpl; try discriminate.
  destruct (PrimFloat.eqb hi lo); simpl; [discriminate|].
  intros [= <-] Hr.
  destruct (PrimFloat.is_nan ((avg - lo) / (hi - lo) * 100)%float) eqn:Hp.
  - rewrite (clamp_nan _ Hp) in Hr. discriminate Hr.
  - now apply clamp_in_range.
Qed.

(** C9.  Over a summary with at least one sample record, the sample table
    has the keys of the first record for headers and, for rows, the first
    five records at most, each projected onto those headers: the cell of
    record [i] under header [j] is "-" when the record's value there is
    null or undefined (the record lacks the field), the ISO string of a
    [Date], and [String(value)] otherwise.  A field that the first record
    lacks has no column, whatever the later records hold. *)
Theorem buildSampleRows_follows_first_record
    (summary : IngestionSummary) (first : object value) (rest : list (object value)) :
  sample_records summary = first :: rest ->
  let table := buildSampleRows (Some summary) in
  let cell := fun (record : object value) (header : string) =>
                match get record header with
                | VNull | VUndefined => "-"
                | VDate t => toISOString t
                | v => String_of v
                end in
  headers table = Object_keys first
  /\ rows table
     = map (fun record => map (cell record) (Object_keys first))
         (firstn 5 (first :: rest))
  /\ List.length (rows table) = Nat.min 5 (S (List.length rest))
  /\ Forall (fun row => List.length row = List.length (headers table)) (rows table)
  /\ (forall i j record header,
        i < 5 ->
        nth_error (first :: rest) i = Some record ->
        nth_error (Object_keys first) j = Some header ->
        exists row,
          nth_error (rows table) i = Some row
          /\ nth_error row j = Some (cell record header))
  /\ (forall record header v,
        own record header = Some v ->
        cell record header
        = match v with
          | VNull | VUndefined => "-"
          | VDate t => toISOString t
          | _ => String_of v
          end)
  /\ (forall record header,
        get record header = VNull \/ get record header = VUndefined ->
        cell record header = "-")
  /\ (forall name, ~ In name (Object_keys first) ->
        ~ In name (headers table)
        /\ forall record,
             map (cell record) (headers table)
             = map (cell (filter (fun kv => negb (String.eqb (fst kv) name)) record))
                 (headers table)).
Proof.
  intros Hrec table cell. subst table. unfold buildSampleRows. rewrite Hrec.
  cbn [headers rows].
  change (sample_cell) with cell.
  split; [reflexivity|]. split; [reflexivity|].
  split; [|split; [|split; [|split; [|split]]]].
  - rewrite length_map, length_firstn. reflexivity.
  - apply Forall_forall. intros row Hrow. apply in_map_iff in Hrow.
    destruct Hrow as (record & <- & _). now rewrite length_map.
  - intros i j record header Hi Hrecord Hheader.
    exists (map (cell record) (Object_keys first)). split.
    + apply (map_nth_error (fun r => map (cell r) (Object_keys first))).
      rewrite nth_error_firstn. apply Nat.ltb_lt in Hi. now rewrite Hi.
    + now apply (map_nth_error (cell record)).
  - intros record header v Hown. subst cell. cbv beta. unfold get.
    rewrite Hown. now destruct v.
  - intros record header [H|H]; subst cell; cbv beta; now rewrite H.
  - intros name Hname. split; [exact Hname|].
    intros record. apply map_ext_in. intros header Hheader.
    subst cell. cbv beta. unfold get.
    assert (Hneq : header <> name) by (intros ->; contradiction).
    assert (Hown : own (filter (fun kv => negb (String.eqb (fst kv) name)) record)
                     header
                   = own record header).
    { clear - Hneq. induction record as [|[k v] record IH]; simpl; [reflexivity|].
      destruct (String.eqb_spec k name) as [->|Hk]; simpl.
      - destruct (String.eqb_spec name header) as [->|_]; [congruence|exact IH].
      - destruct (String.eqb k header); [reflexivity|exact IH]. }
    now rewrite Hown.
Qed.

End DashboardClaims.

Section DashboardRuns.
Import JS Model Dashboard Samples.

Lemma buildSampleRows_witness :
  headers (buildSampleRows (Some dated)) = ["date"; "ts"; "w"].
Proof.
  exact (proj1 (buildSampleRows_follows_first_record dated _ _ eq_refl)).
Defined.

(** The row of a record that lacks the column "w" of the first record. *)
Example buildSampleRows_dated :
  rows (buildSampleRows (Some dated))
  = [["number"; "2024-01-01"; "number"]; ["number"; "2024-01-02"; "-"]].
Proof. reflexivity. Qed.

(** C8, that [meanPercent] is null or lies within [0, 100], fails on the
    statistics [wide], three finite numbers: the range
    [maximum - minimum] overflows to infinity and so does [mean - minimum],
    their quotient is NaN, and [Math.min(100, Math.max(0, NaN))] is NaN, so
    the entry has a [meanPercent] that is neither null nor within
    [0, 100]. *)
Lemma summarizeNumeric_overflow_gives_nan :
  summarizeNumeric (Some (summary_of ["v"] [] [("v", wide)]))
  = [{| field := "v";
        mean := Some 0x1p1023%float;
        minimum := Some (-0x1p1023)%float;
        maximum := Some 0x1p1023%float;
        meanPercent := Some PrimFloat.nan |}]
  /\ PrimFloat.sub 0x1p1023 (-0x1p1023) = PrimFloat.infinity
  /\ PrimFloat.leb 0 PrimFloat.nan = false
  /\ PrimFloat.leb PrimFloat.nan 100 = false.
Proof.
  repeat split; vm_compute; reflexivity.
Qed.

End DashboardRuns.

Section HistoryClaims.
Import JS Model Dashboard History.
Context {rt : Runtime}.

Lemma history_items_filtered (connections : list ConnectionResponse)
    (filterText : string) :
  history_items connections filterText = filtered connections filterText.
Proof.
  unfold history_items, HistoryModal.
  destruct (List.length connections <=? 1) eqn:Hlen.
  - apply Nat.leb_le in Hlen. unfold filtered, filterConnections.
    destruct connections as [|a [|b l]]; simpl in *; try lia;
      now destruct (String.eqb (trim filterText) "").
  - destruct (filtered connections filterText) as [|c l]; reflexivity.
Qed.

Lemma filterConnections_from (connections : list ConnectionResponse)
    (filterText : string) (c : ConnectionResponse) :
  In c (filterConnections connections filterText) -> In c connections.
Proof.
  unfold filterConnections. destruct (String.eqb (trim filterText) ""); [easy|].
  intros Hin. now apply filter_In in Hin.
Qed.

Lemma in_skipn_1 {A} (xs : list A) (x : A) :
  In x (skipn 1 xs) -> exists i, 1 <= i /\ nth_error xs i = Some x.
Proof.
  destruct xs as [|x0 xs]; simpl; [easy|].
  intros Hin. apply In_nth_error in Hin. destruct Hin as (n & Hn).
  exists (S n). split; [lia|exact Hn].
Qed.

(** C10.  The saved list shows the first connection and no other; the
    history modal lists connections from index 1 on: all of them under a
    blank filter, otherwise those whose lower-cased portal name or dataset
    id contains the lower-cased filter text; the open modal says "No
    previous connections found." exactly when there is at most one
    connection; so a connection of the saved list and one of the history
    stand at different places of the list, and have different ids when ids
    are not repeated. *)
Theorem history_modal_lists_the_other_connections
    (connections : list ConnectionResponse) (filterText : string) :
  saved_items connections = firstn 1 connections
  /\ history_items connections filterText
     = (if String.eqb (trim filterText) "" then skipn 1 connections
        else filter
               (fun c =>
                  includes (toLowerCase (portal_name c)) (toLowerCase filterText)
                  || includes (toLowerCase (dataset_id c)) (toLowerCase filterText))
               (skipn 1 connections))
  /\ (HistoryModal true connections filterText = Some NoPreviousConnections
      <-> List.length connections <= 1)
  /\ HistoryModal false connections filterText = None
  /\ (forall c, In c (saved_items connections) -> nth_error connections 0 = Some c)
  /\ (forall c, In c (history_items connections filterText) ->
        exists i, 1 <= i /\ nth_error connections i = Some c)
  /\ (NoDup (map id connections) ->
      forall a b, In a (saved_items connections) ->
                  In b (history_items connections filterText) -> id a <> id b).
Proof.
  assert (Hsaved : forall c, In c (saved_items connections) ->
                     nth_error connections 0 = Some c).
  { destruct connections as [|c0 l]; simpl; [easy|]. now intros c [->|[]]. }
  assert (Hhist : forall c, In c (history_items connections filterText) ->
                    exists i, 1 <= i /\ nth_error connections i = Some c).
  { intros c Hc. rewrite history_items_filtered in Hc.
    apply filterConnections_from in Hc. now apply in_skipn_1. }
  split; [now destruct connections|]. split; [|split; [|split; [|split; [|split]]]].
  - rewrite history_items_filtered. unfold filtered, filterConnections.
    now destruct (String.eqb (trim filterText) "").
  - unfold HistoryModal. destruct (List.length connections <=? 1) eqn:Hlen.
    + apply Nat.leb_le in Hlen. now split.
    + apply Nat.leb_gt in Hlen. split; [|lia].
      now destruct (List.length (filtered connections filterText) =? 0).
  - reflexivity.
  - exact Hsaved.
  - exact Hhist.
  - intros Hnodup a b Ha Hb Hid.
    apply Hsaved in Ha. destruct (Hhist b Hb) as (i & Hi & Hnth).
    apply (map_nth_error id) in Ha. apply (map_nth_error id) in Hnth.
    rewrite Hid in Ha.
    assert (Hlt : 0 < List.length (map id connections)).
    { apply nth_error_Some. congruence. }
    pose proof (proj1 (NoDup_nth_error (map id connections)) Hnodup 0 i Hlt) as Heq.
    rewrite Ha, Hnth in Heq. specialize (Heq eq_refl). lia.
Qed.

End HistoryClaims.

Section HistoryRuns.
Import JS Model Dashboard History Samples.

Lemma history_modal_witness :
  NoDup (map id three_connections)
  /\ Forall (fun a => Forall (fun b => id a <> id b)
                       (history_items three_connections "TRAFFIC"))
       (saved_items three_connections).
Proof.
  assert (H : NoDup (map id three_connections)).
  { repeat constructor; simpl; intuition discriminate. }
  split; [exact H|].
  apply Forall_forall. intros a Ha. apply Forall_forall. intros b Hb.
  exact (proj2 (proj2 (proj2 (proj2 (proj2 (proj2
    (history_modal_lists_the_other_connections three_connections "TRAFFIC"))))))
    H a b Ha Hb).
Defined.

Example history_items_traffic :
  map id (history_items three_connections "TRAFFIC") = ["c1"]
  /\ map id (saved_items three_connections) = ["c3"].
Proof. split; reflexivity. Qed.

End HistoryRuns.

(* ================================================================== *)
(** * Properties of the job state machine *)
(* ================================================================== *)

Section OrchestratorClaims.
Import Model Orchestrator.

Lemma transition_cases (s s' : JobStatus) (e : job_event) :
  transition s e = Some s' ->
  (s = Pending /\ s' = Running)
  \/ (s = Running /\ (s' = Completed \/ s' = Failed)).
Proof.
  destruct s, e; simpl; intros [= <-]; auto.
Qed.

Lemma terminal_has_no_transition (s : JobStatus) (e : job_event) :
  is_terminal s = true -> transition s e = None /\ apply_event s e = s.
Proof.
  unfold apply_event. destruct s, e; simpl; intros H; try discriminate H; auto.
Qed.

Lemma apply_event_rank (s : JobStatus) (e : job_event) :
  rank s <= rank (apply_event s e).
Proof.
  unfold apply_event. destruct s, e; simpl; lia.
Qed.

(** Every later snapshot of a job is at or after its current status, and is
    that very status once it is terminal. *)
Lemma observed_from (es : list job_event) :
  forall (s b : JobStatus) (j : nat),
    nth_error (observed s es) j = Some b ->
    rank s <= rank b /\ (is_terminal s = true -> b = s).
Proof.
  induction es as [|e es IH]; intros s b j Hj; simpl in Hj.
  - destruct j as [|[|j]]; simpl in Hj; try discriminate.
    injection Hj as <-. auto.
  - destruct j as [|j]; simpl in Hj.
    + injection Hj as <-. auto.
    + destruct (IH _ _ _ Hj) as (Hrank & Hterm). split.
      * pose proof (apply_event_rank s e). lia.
      * intros Hs. destruct (terminal_has_no_transition s e Hs) as (_ & Heq).
        rewrite Heq in Hterm. auto.
Qed.

Lemma observed_later (es : list job_event) :
  forall (s a b : JobStatus) (i j : nat),
    i <= j ->
    nth_error (observed s es) i = Some a ->
    nth_error (observed s es) j = Some b ->
    rank a <= rank b /\ (is_terminal a = true -> b = a).
Proof.
  induction es as [|e es IH]; intros s a b i j Hij Hi Hj.
  - destruct i as [|[|i]], j as [|[|j]]; simpl in Hi, Hj; try discriminate.
    injection Hi as <-. injection Hj as <-. auto.
  - destruct i as [|i].
    + simpl in Hi. injection Hi as <-. eapply observed_from. exact Hj.
    + destruct j as [|j]; [lia|]. simpl in Hi, Hj.
      eapply (IH _ a b i j); [lia|exact Hi|exact Hj].
Qed.

(** C7.  Over the life of a job, whatever events reach it: a transition is
    [pending -> running], [running -> completed] or [running -> failed];
    no transition leaves a terminal state; the statuses a poller observes
    never go back in that order; and after a snapshot that is completed,
    every later snapshot is completed. *)
Theorem job_status_is_monotonic (es : list job_event) :
  let seen := observed Pending es in
  (forall s e s', transition s e = Some s' ->
     (s = Pending /\ s' = Running)
     \/ (s = Running /\ (s' = Completed \/ s' = Failed)))
  /\ (forall s e, is_terminal s = true -> transition s e = None)
  /\ (forall i j a b,
        i <= j -> nth_error seen i = Some a -> nth_error seen j = Some b ->
        rank a <= rank b)
  /\ (forall i j b,
        i <= j -> nth_error seen i = Some Completed -> nth_error seen j = Some b ->
        b = Completed /\ b <> Pending /\ b <> Running /\ b <> Failed).
Proof.
  intros seen. split; [intros s e s'; apply transition_cases|]. split; [|split].
  - intros s e Hs. now apply terminal_has_no_transition.
  - intros i j a b Hij Hi Hj.
    now destruct (observed_later es Pending a b i j Hij Hi Hj).
  - intros i j b Hij Hi Hj.
    destruct (observed_later es Pending Completed b i j Hij Hi Hj) as (_ & Hb).
    rewrite (Hb eq_refl). repeat split; discriminate.
Qed.

Lemma job_status_witness : rank Running <= rank Completed.
Proof.
  refine (proj1 (proj2 (proj2
    (job_status_is_monotonic [WorkerPickup; StagesSucceed]))) 1 2 Running Completed
    _ eq_refl eq_refl).
  repeat constructor.
Defined.

(** A job that is picked up, succeeds, and is then told to fail. *)
Example observed_run :
  observed Pending [WorkerPickup; StagesSucceed; StageFails; WorkerPickup]
  = [Pending; Running; Completed; Completed; Completed].
Proof. reflexivity. Qed.

End OrchestratorClaims.

(* ================================================================== *)
(** * Further properties of the ingestion handlers *)
(* ================================================================== *)

Section IngestionFacts.
Import JS Model Wizard Fixtures.
Context {rt : Runtime}.
Variables (net : network) (cb : callback) (connectionId jobId : string).

Lemma slept_app (xs ys : list event) : slept (xs ++ ys) = slept xs + slept ys.
Proof.
  induction xs as [|[ms|r|c j] xs IH]; simpl; lia.
Qed.

Lemma slept_polls (n : nat) : slept (polls connectionId jobId n) = 750 * n.
Proof.
  induction n as [|n IH]; [reflexivity|].
  rewrite polls_S. cbn [slept]. rewrite IH. lia.
Qed.

Lemma slept_notification (job : IngestionJobResponse) :
  slept (notification cb connectionId job) = 0.
Proof. now destruct cb. Qed.

Lemma notify_connectionId (job : IngestionJobResponse) (w : wizard) :
  Wizard.connectionId (notify cb connectionId job w) = Wizard.connectionId w.
Proof.
  unfold notify. destruct cb as [handler|]; simpl; [|reflexivity].
  now destruct (handler connectionId job).
Qed.

(** What [notify] leaves of the state it was handed: that state, or the
    failed state of the [catch] block. *)
Lemma notify_ingestState (job : IngestionJobResponse) (w : wizard) :
  ingestState (notify cb connectionId job w) = ingestState w
  \/ ingestState (notify cb connectionId job w) = IngestFailed.
Proof.
  unfold notify. destruct cb as [handler|]; simpl; [|now left].
  destruct (handler connectionId job); simpl; auto.
Qed.

(** A run of the loop is some rounds, then at most the call of the handler,
    which neither sleeps nor fetches. *)
Lemma poll_loop_rounds (remaining : nat) :
  forall (attempt : nat) (w : wizard),
    let w' := poll_loop net cb connectionId jobId remaining attempt w in
    exists (k : nat) (tail : list event),
      k <= remaining
      /\ effects w' = (effects w ++ polls connectionId jobId k ++ tail)%list
      /\ requests tail = [] /\ slept tail = 0.
Proof.
  induction remaining as [|remaining IH]; intros attempt w; simpl.
  - exists 0, []. simpl. rewrite app_nil_r. auto.
  - destruct (net attempt) as [m|d|m|job] eqn:Hnet.
    1-3: exists 1, []; simpl; rewrite <- app_assoc; simpl;
      (split; [lia|split; [reflexivity|split; reflexivity]]).
    destruct (status job) eqn:Hs.
    1-2: destruct (IH (S attempt)
            (setJobStatus (Some job)
               (emit (Fetch (status_request connectionId jobId))
                  (emit (Sleep 750) w))))
          as (k & tail & Hk & He & Hreq & Hsl);
      exists (S k), tail; rewrite He, polls_S; simpl; rewrite <- !app_assoc; simpl;
      (split; [lia|split; [reflexivity|split; [exact Hreq|exact Hsl]]]).
    all: exists 1, (notification cb connectionId job);
      rewrite notify_effects; simpl; rewrite <- !app_assoc; simpl;
      (split; [lia|split; [reflexivity|split;
         [apply requests_notification|apply slept_notification]]]).
Qed.

(** A poll that fails in transport ends the loop at once. *)
Lemma poll_loop_gives_up (k : nat) :
  forall (remaining attempt : nat) (w : wizard),
    k < remaining ->
    (forall i, attempt <= i < attempt + k ->
       exists j, net i = OkJob j /\ is_terminal (status j) = false) ->
    (forall job, net (attempt + k) <> OkJob job) ->
    let w' := poll_loop net cb connectionId jobId remaining attempt w in
    effects w' = (effects w ++ polls connectionId jobId (S k))%list
    /\ ingestState w' = IngestFailed
    /\ ingestError w'
       = Some (match net (attempt + k) with
               | NotOk _ => "Unable to check ingestion status."
               | _ => "Error while checking ingestion status."
               end)
    /\ jobStatus w'
       = match k with
         | 0 => jobStatus w
         | S k' => match net (attempt + k') with
                   | OkJob j => Some j
                   | _ => jobStatus w
                   end
         end.
Proof.
  induction k as [|k IH]; intros remaining attempt w Hk Hpre Hat;
    (destruct remaining as [|remaining]; [lia|]); simpl.
  - rewrite Nat.add_0_r in Hat |- *.
    destruct (net attempt) as [m|d|m|job] eqn:Hnet;
      try (exfalso; now apply (Hat job));
      simpl; rewrite <- app_assoc; repeat split; reflexivity.
  - destruct (Hpre attempt ltac:(lia)) as (j & Hj & Hterm). rewrite Hj.
    destruct (status j) eqn:Hs; try discriminate Hterm.
    all: edestruct (IH remaining (S attempt)) as (He & Hst & Herr & Hjs);
      [ lia
      | intros i Hi; apply Hpre; lia
      | intros job; replace (S attempt + k) with (attempt + S k) by lia; apply Hat
      | rewrite He, Hst, Herr, Hjs; simpl; rewrite <- !app_assoc; simpl;
        replace (S (attempt + k)) with (attempt + S k) by lia;
        (split; [reflexivity|split; [reflexivity|split; [reflexivity|]]]);
        destruct k as [|k'];
        [ rewrite Nat.add_0_r, Hj; reflexivity
        | replace (S (attempt + k')) with (attempt + S k') by lia;
          destruct (Hpre (attempt + S k') ltac:(lia)) as (j' & -> & _);
          reflexivity ] ].
Qed.

End IngestionFacts.

Section UnansweredFacts.
Import JS Model Wizard Await.
Context {rt : Runtime}.
Variables (net : Unanswered.network) (cb : callback) (cid jid : string).

(** Over a network that answers every request the loop of [Unanswered] is
    the loop of [Wizard]. *)
Lemma unanswered_poll_loop_agrees (closed : network) :
  (forall i, net i = Settles (closed i)) ->
  forall (remaining attempt : nat) (w : wizard),
    Unanswered.poll_loop net cb cid jid remaining attempt w
    = poll_loop closed cb cid jid remaining attempt w.
Proof.
  intros Hnet. induction remaining as [|remaining IH]; intros attempt w; simpl.
  - reflexivity.
  - rewrite Hnet. destruct (closed attempt) as [m|d|m|job]; try reflexivity.
    destruct (status job); try reflexivity; apply IH.
Qed.

(** A run of the loop issues some requests, at most as many as rounds
    remain.  Either all of them were answered, and the loop has ended
    completed, failed or timed out; or the last one was not, and the loop
    is still polling. *)
Lemma unanswered_poll_loop_run (remaining : nat) :
  forall (attempt : nat) (w : wizard),
    ingestState w = Polling ->
    let w' := Unanswered.poll_loop net cb cid jid remaining attempt w in
    exists k,
      k <= remaining
      /\ List.length (requests (effects w')) = List.length (requests (effects w)) + k
      /\ connectionId w' = connectionId w
      /\ (((ingestState w' = IngestCompleted \/ ingestState w' = IngestFailed
            \/ ingestState w' = Timeout)
           /\ (ingestState w' = IngestCompleted ->
               exists job, jobStatus w' = Some job /\ status job = Completed)
           /\ forall i, attempt <= i < attempt + k -> net i <> Hangs)
          \/ (ingestState w' = Polling /\ 0 < k /\ net (attempt + k - 1) = Hangs)).
Proof.
  assert (Hround : forall w : wizard,
    List.length
      (requests (effects (emit (Fetch (status_request cid jid)) (emit (Sleep 750) w))))
    = List.length (requests (effects w)) + 1).
  { intros w. cbn [effects emit]. rewrite !requests_app, !length_app. simpl. lia. }
  assert (Hone : forall attempt i, attempt <= i < attempt + 1 -> i = attempt)
    by (intros; lia).
  induction remaining as [|remaining IH]; intros attempt w Hw; simpl.
  - exists 0. split; [lia|]. split; [lia|]. split; [reflexivity|]. left.
    split; [auto|]. split; [discriminate|]. intros i Hi. lia.
  - destruct (net attempt) as [[m|d|m|job]|] eqn:Hat.
    1-3: exists 1; (split; [lia|]);
      (split; [apply (Hround w)|]); (split; [reflexivity|]); left;
      (split; [simpl; auto|]); (split; [discriminate|]);
      intros i Hi; rewrite (Hone _ _ Hi), Hat; discriminate.
    + destruct (status job) eqn:Hs.
      1-2: destruct (IH (S attempt)
              (setJobStatus (Some job)
                 (emit (Fetch (status_request cid jid)) (emit (Sleep 750) w))) Hw)
            as (k & Hk & Hlen & Hc & Hend);
        exists (S k); (split; [lia|]);
        (split; [rewrite Hlen; cbn [effects setJobStatus];
                 rewrite (Hround w); lia|]);
        (split; [exact Hc|]);
        destruct Hend as [(Hst & Hdone & Hall)|(Hst & Hpos & Hhang)];
        [ left; (split; [exact Hst|]); (split; [exact Hdone|]);
          intros i Hi; destruct (Nat.eq_dec i attempt) as [->|Hne];
          [rewrite Hat; discriminate|apply Hall; lia]
        | right; (split; [exact Hst|]); (split; [lia|]);
          replace (attempt + S k - 1) with (S attempt + k - 1) by lia; exact Hhang ].
      * exists 1. split; [lia|].
        rewrite notify_effects, notify_connectionId, notify_jobStatus.
        rewrite requests_app, requests_notification, app_nil_r.
        split; [apply (Hround w)|]. split; [reflexivity|]. left.
        split; [|split].
        -- match goal with
           | |- context [notify _ _ ?J ?W] =>
               destruct (notify_ingestState cb cid J W) as [->| ->]
           end; simpl; auto.
        -- intros _. exists job. now split.
        -- intros i Hi. rewrite (Hone _ _ Hi), Hat. discriminate.
      * exists 1. split; [lia|].
        rewrite notify_effects, notify_connectionId, notify_jobStatus.
        rewrite requests_app, requests_notification, app_nil_r.
        split; [apply (Hround w)|]. split; [reflexivity|]. left.
        match goal with
        | |- context [notify _ _ ?J ?W] =>
            destruct (notify_ingestState cb cid J W) as [->| ->]
        end; simpl; (split; [auto|]); (split; [discriminate|]);
          intros i Hi; rewrite (Hone _ _ Hi), Hat; discriminate.
    + exists 1. split; [lia|]. split; [apply (Hround w)|].
      split; [reflexivity|]. right. split; [exact Hw|]. split; [lia|].
      now replace (attempt + 1 - 1) with attempt by lia.
Qed.

End UnansweredFacts.
Section IngestionExtras.
Import JS Model Wizard Fixtures.
Context {rt : Runtime}.
Local Arguments poll_loop : simpl never.

(** X1.  [handleIngestion] settles exactly when every request it issues is
    answered: the source sets no timeout.  It issues at most thirteen
    requests, one after the other.  When all of them are answered it ends
    completed, failed or timed out, and afterwards the ingestion button is
    disabled only for want of a connection id.  When one of them is not,
    that request is its last one and the state stays starting or polling,
    with the button disabled.  In either case it keeps the connection id,
    and the state is completed only with a completed snapshot in
    [jobStatus]. *)
Theorem handleIngestion_settles_when_answered
    (net : Unanswered.network) (cb : callback) (w : wizard) :
  let w' := Unanswered.handleIngestion net cb w in
  let issued := List.length (requests (effects w'))
                - List.length (requests (effects w)) in
  issued <= 13
  /\ connectionId w' = connectionId w
  /\ ((ingestState w' = IngestCompleted \/ ingestState w' = IngestFailed
       \/ ingestState w' = Timeout)
      <-> forall i, i < issued -> net i <> Await.Hangs)
  /\ ((exists i, i < issued /\ net i = Await.Hangs) ->
      net (issued - 1) = Await.Hangs
      /\ (ingestState w' = Starting \/ ingestState w' = Polling)
      /\ Form.ingestion_disabled w' = true)
  /\ (ingestState w' = IngestCompleted ->
      exists job, jobStatus w' = Some job /\ status job = Completed)
  /\ (forall answers : network,
        (forall i, net i = Await.Settles (answers i)) ->
        w' = handleIngestion answers cb w
        /\ Form.ingestion_disabled w' = falsy (connectionId w)).
Proof.
  intros w' issued.
  assert (Hrun :
    issued <= 13
    /\ connectionId w' = connectionId w
    /\ (ingestState w' = IngestCompleted ->
        exists job, jobStatus w' = Some job /\ status job = Completed)
    /\ (((ingestState w' = IngestCompleted \/ ingestState w' = IngestFailed
          \/ ingestState w' = Timeout)
         /\ forall i, i < issued -> net i <> Await.Hangs)
        \/ ((ingestState w' = Starting \/ ingestState w' = Polling)
            /\ 0 < issued /\ net (issued - 1) = Await.Hangs))).
  { subst issued w'. unfold Unanswered.handleIngestion.
    assert (Hlocal : forall text,
      let failed := setIngestState IngestFailed (setIngestError (Some text) w) in
      List.length (requests (effects failed)) - List.length (requests (effects w)) <= 13
      /\ connectionId failed = connectionId w
      /\ (ingestState failed = IngestCompleted ->
          exists job, jobStatus failed = Some job /\ status job = Completed)
      /\ (((ingestState failed = IngestCompleted \/ ingestState failed = IngestFailed
            \/ ingestState failed = Timeout)
           /\ forall i,
                i < List.length (requests (effects failed))
                    - List.length (requests (effects w)) ->
                net i <> Await.Hangs)
          \/ ((ingestState failed = Starting \/ ingestState failed = Polling)
              /\ 0 < List.length (requests (effects failed))
                     - List.length (requests (effects w))
              /\ net (List.length (requests (effects failed))
                      - List.length (requests (effects w)) - 1) = Await.Hangs))).
    { intros text failed. subst failed.
      cbn [effects connectionId ingestState jobStatus setIngestState setIngestError].
      rewrite Nat.sub_diag. split; [lia|]. split; [reflexivity|].
      split; [discriminate|]. left. split; [auto|]. intros i Hi. lia. }
    destruct (connectionId w) as [c|] eqn:Hc; [|apply Hlocal].
    destruct (String.eqb c ""); [apply Hlocal|].
    set (w0 := emit (Fetch (ingest_request c))
                 (setIngestError None (setIngestState Starting w))).
    assert (Hsent : List.length (requests (effects w0))
                    = List.length (requests (effects w)) + 1).
    { subst w0. cbn [effects emit setIngestError setIngestState].
      rewrite requests_app, length_app. simpl. lia. }
    assert (Hc0 : connectionId w0 = Some c) by exact Hc.
    destruct (net 0) as [[m|d|m|job]|] eqn:Hat.
    1-3: cbn [effects connectionId ingestState jobStatus setIngestState
              setIngestError];
      rewrite Hsent;
      replace (List.length (requests (effects w)) + 1
               - List.length (requests (effects w))) with 1 by lia;
      (split; [lia|]); (split; [exact Hc0|]); (split; [discriminate|]); left;
      (split; [auto|]); intros i Hi;
      replace i with 0 by lia; rewrite Hat; discriminate.
    - unfold Unanswered.pollJobStatus.
      destruct (unanswered_poll_loop_run (fun n => net (S n)) cb c (job_id job)
                  12 0 (setIngestState Polling (setJobStatus (Some job) w0))
                  eq_refl)
        as (k & Hk & Hlen & Hcid & Hend).
      cbn [effects connectionId setIngestState setJobStatus] in Hlen, Hcid.
      rewrite Hlen, Hsent.
      replace (List.length (requests (effects w)) + 1 + k
               - List.length (requests (effects w))) with (S k) by lia.
      split; [lia|]. split; [now rewrite Hcid|].
      destruct Hend as [(Hst & Hdone & Hall)|(Hst & Hpos & Hhang)].
      + split; [exact Hdone|]. left. split; [exact Hst|].
        intros i Hi. destruct i as [|i]; [rewrite Hat; discriminate|].
        apply (Hall i). lia.
      + split; [rewrite Hst; discriminate|]. right.
        split; [now right|]. split; [lia|].
        replace (S k - 1) with (S (0 + k - 1)) by lia. exact Hhang.
    - cbn [effects connectionId ingestState jobStatus] in *.
      rewrite Hsent.
      replace (List.length (requests (effects w)) + 1
               - List.length (requests (effects w))) with 1 by lia.
      split; [lia|]. split; [exact Hc0|]. split; [discriminate|]. right.
      split; [now left|]. split; [lia|exact Hat]. }
  destruct Hrun as (Hmax & Hcid & Hdone & Hend).
  split; [exact Hmax|]. split; [exact Hcid|].
  assert (Hsettled :
    (ingestState w' = IngestCompleted \/ ingestState w' = IngestFailed
     \/ ingestState w' = Timeout)
    <-> forall i, i < issued -> net i <> Await.Hangs).
  { destruct Hend as [(Hst & Hall)|(Hst & Hpos & Hhang)].
    - split; [intros _; exact Hall|intros _; exact Hst].
    - split.
      + intros Hs. exfalso.
        destruct Hst as [Hst|Hst]; rewrite Hst in Hs;
          destruct Hs as [Hs|[Hs|Hs]]; discriminate Hs.
      + intros Hall. exfalso. apply (Hall (issued - 1)); [lia|exact Hhang]. }
  split; [exact Hsettled|]. split; [|split; [exact Hdone|]].
  - intros (i & Hi & Hhang).
    destruct Hend as [(_ & Hall)|(Hst & Hpos & Hlast)].
    + now destruct (Hall i Hi).
    + split; [exact Hlast|]. split; [exact Hst|].
      unfold Form.ingestion_disabled.
      destruct Hst as [-> | ->]; apply orb_true_r.
  - intros answers Hnet. split.
    + subst w'. unfold Unanswered.handleIngestion, handleIngestion.
      destruct (connectionId w) as [c|]; [|reflexivity].
      destruct (String.eqb c ""); [reflexivity|].
      rewrite Hnet. destruct (answers 0) as [m|d|m|job]; try reflexivity.
      unfold Unanswered.pollJobStatus, pollJobStatus.
      apply unanswered_poll_loop_agrees. intros i. apply Hnet.
    + unfold Form.ingestion_disabled. rewrite Hcid.
      assert (Hst : ingestState w' = IngestCompleted
                    \/ ingestState w' = IngestFailed \/ ingestState w' = Timeout).
      { apply Hsettled. intros i _. rewrite Hnet. discriminate. }
      destruct Hst as [->|[->| ->]]; apply orb_false_r.
Qed.

(** X2.  A run of [pollJobStatus] spends 750 ms in [setTimeout] per request it
    issues: twelve times 750 ms, nine seconds, at most. *)
Theorem pollJobStatus_sleeps_750ms_per_request
    (net : network) (cb : callback) (connectionId jobId : string) (w : wizard) :
  let issued := skipn (List.length (effects w))
                  (effects (pollJobStatus net cb connectionId jobId w)) in
  slept issued = 750 * List.length (requests issued)
  /\ slept issued <= 12 * 750.
Proof.
  intros issued. subst issued.
  destruct (poll_loop_rounds net cb connectionId jobId 12 0
              (setIngestState Polling w)) as (k & tail & Hk & He & Hreq & Hsl).
  unfold pollJobStatus. simpl effects in He.
  rewrite He, skipn_app, skipn_all, Nat.sub_diag. cbn [skipn app].
  rewrite slept_app, requests_app, Hreq, Hsl, slept_polls, requests_polls,
    app_nil_r, repeat_length.
  split; lia.
Qed.

(** X3.  The first poll that fails in transport (the fetch rejects, the response
    is not ok, or its body does not parse) ends the loop: no further
    request, no call of the completion handler, the failed state with the
    text of that kind of failure, and the last good snapshot kept. *)
Theorem pollJobStatus_stops_at_first_failed_poll
    (net : network) (cb : callback) (connectionId jobId : string) (w : wizard)
    (k : nat) :
  k < 12 ->
  (forall i, i < k ->
     exists j, net i = OkJob j /\ is_terminal (status j) = false) ->
  (forall job, net k <> OkJob job) ->
  let w' := pollJobStatus net cb connectionId jobId w in
  effects w' =
    (effects w
       ++ List.concat (repeat [Sleep 750; Fetch (status_request connectionId jobId)] (S k)))%list
  /\ ingestState w' = IngestFailed
  /\ ingestError w'
     = Some (match net k with
             | NotOk _ => "Unable to check ingestion status."
             | _ => "Error while checking ingestion status."
             end)
  /\ jobStatus w'
     = match k with
       | 0 => jobStatus w
       | S k' => match net k' with
                 | OkJob j => Some j
                 | _ => jobStatus w
                 end
       end.
Proof.
  intros Hk Hpre Hat w'.
  exact (poll_loop_gives_up net cb connectionId jobId k 12 0
           (setIngestState Polling w) Hk
           (fun i Hi => Hpre i ltac:(lia)) Hat).
Qed.

(** X4.  When the POST that starts the ingestion fails, [handleIngestion] polls
    nothing: that POST is its only request, the state is failed, the text
    is the server's detail (or the error's message) when there is one, and
    the job snapshot is left as it was. *)
Theorem handleIngestion_start_failure
    (net : network) (cb : callback) (w : wizard) (c : string) :
  connectionId w = Some c -> c <> "" ->
  (forall job, net 0 <> OkJob job) ->
  let w' := handleIngestion net cb w in
  effects w' = (effects w ++ [Fetch (ingest_request c)])%list
  /\ ingestState w' = IngestFailed
  /\ jobStatus w' = jobStatus w
  /\ ingestError w'
     = Some (match net 0 with
             | NotOk detail => nullish detail "Failed to start data ingestion."
             | FetchThrows m | BadBody m =>
                 nullish m "An error occurred while ingesting data."
             | OkJob _ => ""
             end).
Proof.
  intros Hc Hne Hfail w'. subst w'. unfold handleIngestion. rewrite Hc.
  apply String.eqb_neq in Hne. rewrite Hne.
  destruct (net 0) as [m|d|m|job]; simpl; auto.
  exfalso. now apply (Hfail job).
Qed.

(** X5.  When the POST succeeds, the requests of [handleIngestion] are that
    POST followed by at most twelve GETs of
    /connections/{connectionId}/ingest/{job_id}, each with the saved
    connection id and with the job id that the POST returned. *)
Theorem handleIngestion_polls_the_started_job
    (net : network) (cb : callback) (w : wizard) (c : string)
    (job : IngestionJobResponse) :
  connectionId w = Some c -> c <> "" ->
  net 0 = OkJob job ->
  let w' := handleIngestion net cb w in
  exists k, k <= 12
    /\ requests (skipn (List.length (effects w)) (effects w'))
       = ({| req_method := POST;
             req_url := API_BASE_URL ++ "/connections/" ++ c ++ "/ingest";
             req_headers := [("Content-Type", "application/json")];
             req_body := Some [("force_refresh", JBool false)] |}
          :: repeat
               {| req_method := GET;
                  req_url := API_BASE_URL ++ "/connections/" ++ c ++ "/ingest/"
                             ++ job_id job;
                  req_headers := [];
                  req_body := None |} k)%list.
Proof.
  intros Hc Hne Hnet w'. subst w'. unfold handleIngestion. rewrite Hc, Hnet.
  apply String.eqb_neq in Hne. rewrite Hne.
  change {| req_method := POST;
            req_url := API_BASE_URL ++ "/connections/" ++ c ++ "/ingest";
            req_headers := [("Content-Type", "application/json")];
            req_body := Some [("force_refresh", JBool false)] |}
    with (ingest_request c).
  change {| req_method := GET;
            req_url := API_BASE_URL ++ "/connections/" ++ c ++ "/ingest/"
                       ++ job_id job;
            req_headers := [];
            req_body := None |}
    with (status_request c (job_id job)).
  set (w0 := setJobStatus (Some job)
               (emit (Fetch (ingest_request c))
                  (setIngestError None (setIngestState Starting w)))).
  destruct (poll_loop_shape (fun n => net (S n)) cb c (job_id job) 12 0
              (setIngestState Polling w0)) as (k & tail & Hk & He & Hreq & _).
  exists k. unfold pollJobStatus. split; [exact Hk|].
  rewrite He. subst w0. cbn [effects setIngestState setJobStatus emit setIngestError].
  rewrite <- app_assoc, skipn_app, skipn_all, Nat.sub_diag. cbn [skipn app requests].
  now rewrite requests_app, Hreq, app_nil_r, requests_polls.
Qed.

End IngestionExtras.

Section IngestionRuns.
Import JS Model Wizard Samples Fixtures.

Lemma pollJobStatus_failed_poll_witness :
  ingestError (pollJobStatus drops_at_second_poll None "conn-1" "job-1"
                 (mounted (Some "conn-1")))
  = Some "Unable to check ingestion status."
  /\ jobStatus (pollJobStatus drops_at_second_poll None "conn-1" "job-1"
                  (mounted (Some "conn-1")))
     = Some (job Pending None).
Proof.
  refine ((fun H => conj (proj1 (proj2 (proj2 H))) (proj2 (proj2 (proj2 H))))
    (pollJobStatus_stops_at_first_failed_poll drops_at_second_poll None
       "conn-1" "job-1" (mounted (Some "conn-1")) 1 _ _ _)).
  - lia.
  - intros i Hi. exists (job Pending None).
    destruct i as [|i]; [split; reflexivity|lia].
  - discriminate.
Defined.

Lemma handleIngestion_start_failure_witness :
  ingestError (handleIngestion refuses_to_start None (mounted (Some "conn-1")))
  = Some "Connection not found".
Proof.
  refine (proj2 (proj2 (proj2
    (handleIngestion_start_failure refuses_to_start None (mounted (Some "conn-1"))
       "conn-1" eq_refl _ _)))); discriminate.
Defined.

Lemma handleIngestion_polls_witness :
  exists k, k <= 12
    /\ requests (effects (handleIngestion completes_at_once None
                            (mounted (Some "conn-1"))))
       = ({| req_method := POST;
             req_url := "http://localhost:8000/connections/conn-1/ingest";
             req_headers := [("Content-Type", "application/json")];
             req_body := Some [("force_refresh", JBool false)] |}
          :: repeat
               {| req_method := GET;
                  req_url := "http://localhost:8000/connections/conn-1/ingest/job-1";
                  req_headers := [];
                  req_body := None |} k)%list.
Proof.
  refine (handleIngestion_polls_the_started_job completes_at_once None
            (mounted (Some "conn-1")) "conn-1" (job Pending None) eq_refl _ eq_refl).
  discriminate.
Defined.

(** Two rounds, 1.5 s, before the dropped connection is noticed. *)
Example slept_before_giving_up :
  slept (effects (pollJobStatus drops_at_second_poll None "conn-1" "job-1"
                    (mounted (Some "conn-1")))) = 1500.
Proof. reflexivity. Qed.

End IngestionRuns.

(* ================================================================== *)
(** * Properties of the form, of the connection test and of the save *)
(* ================================================================== *)

Section FormFacts.
Import JS Model Wizard Form.



(** Dropping the element whose index is [index], among elements numbered
    from [start]. *)
Lemma filteri_from_drops {A} (index : nat) (xs : list A) :
  forall start,
    filteri_from start (fun _ idx => negb (idx =? index)) xs
    = if index <? start then xs
      else (firstn (index - start) xs ++ skipn (S (index - start)) xs)%list.
Proof.
  induction xs as [|x xs IH]; intros start; simpl.
  - destruct (index <? start); [reflexivity|].
    now rewrite firstn_nil.
  - rewrite IH. destruct (Nat.eqb_spec start index) as [->|Hne]; simpl.
    + rewrite Nat.sub_diag. simpl.
      assert (H : (index <? S index) = true) by (apply Nat.ltb_lt; lia).
      now rewrite H, Nat.ltb_irrefl.
    + destruct (index <? start) eqn:Hlt.
      * apply Nat.ltb_lt in Hlt.
        assert (H : (index <? S start) = true) by (apply Nat.ltb_lt; lia).
        now rewrite H.
      * apply Nat.ltb_ge in Hlt.
        assert (H : (index <? S start) = false) by (apply Nat.ltb_ge; lia).
        rewrite H. replace (index - start) with (S (index - S start)) by lia.
        reflexivity.
Qed.

Lemma filteri_drops_index {A} (index : nat) (xs : list A) :
  filteri_from 0 (fun _ idx => negb (idx =? index)) xs
  = (firstn index xs ++ skipn (S index) xs)%list.
Proof.
  rewrite filteri_from_drops. change (index <? 0) with false.
  now rewrite Nat.sub_0_r.
Qed.

Lemma set_parameters_same (f : FormState) : set_parameters f (parameters f) = f.
Proof. now destruct f. Qed.

Lemma panel_ext (p q : panel) :
  form p = form q -> test_status p = test_status q -> result p = result q ->
  errorMessage p = errorMessage q -> saveState p = saveState q ->
  saveError p = saveError q -> ingestion p = ingestion q -> posts p = posts q ->
  p = q.
Proof. destruct p, q; simpl; congruence. Qed.

(** A state that is only reset when truthy keeps the empty string. *)
Lemma keep_empty_twice (o : option string) :
  match match o with
        | Some e => if String.eqb e "" then Some e else None
        | None => None
        end with
  | Some e => if String.eqb e "" then Some e else None
  | None => None
  end
  = match o with
    | Some e => if String.eqb e "" then Some e else None
    | None => None
    end.
Proof.
  destruct o as [e|]; [|reflexivity].
  destruct (String.eqb e "") eqn:He; [now rewrite He|reflexivity].
Qed.

Section Reset.
Context {rt : Runtime}.

(** The ingestion state after [resetResult]. *)
Lemma resetResult_ingestion (p : panel) :
  ingestion (resetResult p)
  = {| connectionId := match connectionId (ingestion p) with
                       | Some c => if String.eqb c "" then Some c else None
                       | None => None
                       end;
       jobStatus := None;
       ingestState := Idle;
       ingestError := match ingestError (ingestion p) with
                      | Some e => if String.eqb e "" then Some e else None
                      | None => None
                      end;
       effects := effects (ingestion p) |}.
Proof.
  destruct p as [f ts r em ss se [cid js ist ie es] ps]. unfold resetResult.
  cbn [ingestion connectionId jobStatus ingestState ingestError effects].
  destruct cid as [c|]; [destruct (String.eqb c "") eqn:Hc|];
    destruct js; destruct ist;
    (destruct ie as [e|]; [destruct (String.eqb e "") eqn:He|]);
    simpl; rewrite ?Hc, ?He; reflexivity.
Qed.

Lemma resetResult_messages (p : panel) :
  test_status (resetResult p) = TestIdle
  /\ result (resetResult p) = None
  /\ saveState (resetResult p) = SaveIdle
  /\ errorMessage (resetResult p)
     = match errorMessage p with
       | Some e => if String.eqb e "" then Some e else None
       | None => None
       end
  /\ saveError (resetResult p)
     = match saveError p with
       | Some e => if String.eqb e "" then Some e else None
       | None => None
       end
  /\ form (resetResult p) = form p
  /\ posts (resetResult p) = posts p.
Proof. repeat split. Qed.

End Reset.

End FormFacts.

Section FormExtras.
Import JS Model Wizard Form Await.
Context {rt : Runtime}.

(** X6.  [buildPayload] sends no blank query parameter: each one it sends is the
    trimmed copy of a form row, with a non-empty name and a non-empty
    value; each row whose trimmed name and value are non-empty is sent; and
    an empty API key name or value is sent as null. *)
Theorem buildPayload_sends_no_blank_parameter (f : FormState) :
  let sent := query_parameters (buildPayload f) in
  Forall (fun q => name q <> "" /\ value q <> "") sent
  /\ (forall q, In q sent <->
        exists row, In row (parameters f)
                    /\ trim (name row) <> "" /\ trim (value row) <> ""
                    /\ q = {| name := trim (name row); value := trim (value row) |})
  /\ List.length sent <= List.length (parameters f)
  /\ (api_key_name (buildPayload f) = None <-> apiKeyName f = "")
  /\ (api_key_value (buildPayload f) = None <-> apiKeyValue f = "").
Proof.
  intros sent. subst sent. simpl.
  assert (Hin : forall q,
    In q (map (fun param => {| name := trim (name param); value := trim (value param) |})
            (filter (fun param => negb (String.eqb (trim (name param)) "")
                                  && negb (String.eqb (trim (value param)) ""))
               (parameters f)))
    <-> exists row, In row (parameters f)
                    /\ trim (name row) <> "" /\ trim (value row) <> ""
                    /\ q = {| name := trim (name row); value := trim (value row) |}).
  { intros q. rewrite in_map_iff. split.
    - intros (row & <- & Hrow). apply filter_In in Hrow.
      destruct Hrow as (Hrow & Hkeep). apply andb_true_iff in Hkeep.
      destruct Hkeep as (Hn & Hv). apply negb_true_iff in Hn, Hv.
      apply String.eqb_neq in Hn, Hv. now exists row.
    - intros (row & Hrow & Hn & Hv & ->). exists row. split; [reflexivity|].
      apply filter_In. split; [exact Hrow|].
      apply String.eqb_neq in Hn, Hv. now rewrite Hn, Hv. }
  split; [|split; [exact Hin|split; [|split]]].
  - apply Forall_forall. intros q Hq. apply Hin in Hq.
    destruct Hq as (row & _ & Hn & Hv & ->). now split.
  - rewrite length_map. apply filter_length_le.
  - unfold or_null. destruct (String.eqb_spec (apiKeyName f) ""); split;
      congruence.
  - unfold or_null. destruct (String.eqb_spec (apiKeyValue f) ""); split;
      congruence.
Qed.


(** X8.  [removeParameterRow] removes exactly the row at its index and keeps the
    others in order; an index past the last row removes nothing; and
    removing the row that [addParameterRow] has just appended gives the
    form back. *)
Theorem removeParameterRow_drops_one_row (index : nat) (f : FormState) :
  parameters (removeParameterRow index f)
  = (firstn index (parameters f) ++ skipn (S index) (parameters f))%list
  /\ (index < List.length (parameters f) ->
      S (List.length (parameters (removeParameterRow index f)))
      = List.length (parameters f))
  /\ (List.length (parameters f) <= index -> removeParameterRow index f = f)
  /\ parameters (addParameterRow f) = (parameters f ++ [initialParameter])%list
  /\ removeParameterRow (List.length (parameters f)) (addParameterRow f) = f.
Proof.
  assert (Hdrop : forall g : FormState,
    parameters (removeParameterRow index g)
    = (firstn index (parameters g) ++ skipn (S index) (parameters g))%list).
  { intros g. unfold removeParameterRow. destruct g; simpl.
    apply filteri_drops_index. }
  split; [apply Hdrop|split; [|split; [|split]]].
  - intros Hlt. rewrite Hdrop, List.length_app, List.length_firstn, List.length_skipn. lia.
  - intros Hle. unfold removeParameterRow.
    transitivity (set_parameters f (parameters f)); [|apply set_parameters_same].
    f_equal. rewrite filteri_drops_index.
    rewrite firstn_all2 by exact Hle. rewrite skipn_all2 by lia.
    apply app_nil_r.
  - now destruct f.
  - unfold removeParameterRow, addParameterRow. destruct f as [a b c d e g h ps].
    cbn [parameters set_parameters portalName datasetId baseUrl path apiKeyName
         apiKeyValue dataFormat].
    f_equal. rewrite filteri_drops_index.
    rewrite firstn_app, Nat.sub_diag, firstn_all. cbn [firstn].
    rewrite skipn_all2 by (rewrite List.length_app; simpl; lia).
    now rewrite !app_nil_r.
Qed.

(** X9.  [resetResult], run at every change of the form, takes the component
    back to its idle state: no test result, no saved connection id, no job
    and no ingestion state; it leaves the form alone; running it twice is
    running it once; and after it [handleIngestion] issues no request. *)
Theorem resetResult_forgets_the_connection (p : panel) :
  let p' := resetResult p in
  form p' = form p
  /\ test_status p' = TestIdle /\ result p' = None /\ saveState p' = SaveIdle
  /\ falsy (connectionId (ingestion p')) = true
  /\ jobStatus (ingestion p') = None
  /\ ingestState (ingestion p') = Idle
  /\ effects (ingestion p') = effects (ingestion p)
  /\ resetResult p' = p'
  /\ (forall net cb,
        effects (handleIngestion net cb (ingestion p')) = effects (ingestion p)).
Proof.
  intros p'. subst p'.
  pose proof (resetResult_ingestion p) as Hw.
  pose proof (resetResult_messages p) as (Hts & Hr & Hss & Hem & Hse & Hf & Hps).
  assert (Hfalsy : falsy (connectionId (ingestion (resetResult p))) = true).
  { rewrite Hw. simpl. destruct (connectionId (ingestion p)) as [c|]; [|reflexivity].
    destruct (String.eqb c "") eqn:Hc; simpl; [exact Hc|reflexivity]. }
  split; [exact Hf|]. split; [exact Hts|]. split; [exact Hr|]. split; [exact Hss|].
  split; [exact Hfalsy|].
  split; [now rewrite Hw|]. split; [now rewrite Hw|]. split; [now rewrite Hw|].
  split.
  - apply panel_ext.
    + now rewrite !Hf.
    + now rewrite (proj1 (resetResult_messages (resetResult p))).
    + now rewrite (proj1 (proj2 (resetResult_messages (resetResult p)))).
    + destruct (resetResult_messages (resetResult p)) as (_ & _ & _ & -> & _).
      rewrite Hem. apply keep_empty_twice.
    + now destruct (resetResult_messages (resetResult p)) as (_ & _ & -> & _).
    + destruct (resetResult_messages (resetResult p)) as (_ & _ & _ & _ & -> & _).
      rewrite Hse. apply keep_empty_twice.
    + rewrite (resetResult_ingestion (resetResult p)), Hw. simpl.
      now rewrite !keep_empty_twice.
    + now rewrite !Hps.
  - intros net cb.
    assert (Hes : effects (ingestion (resetResult p)) = effects (ingestion p))
      by now rewrite Hw.
    unfold handleIngestion. unfold falsy in Hfalsy.
    destruct (connectionId (ingestion (resetResult p))) as [c|].
    + rewrite Hfalsy. exact Hes.
    + exact Hes.
Qed.

(** X10.  A connection test issues one POST of the payload to
    /connections/test.  The status stays loading exactly as long as that
    request is not answered: the source sets no timeout.  Once it is
    answered the status is success exactly when the server answered ok
    with [success] true, with no error text, and error otherwise, with the
    server's detail, the result's error or reason, the message of the
    thrown error, or the respective default text: a text that is empty
    only when the server or the error supplied the empty string.  An
    answer replaces the shown result; a test that fails in transport
    leaves the previous result in place. *)
Theorem handleSubmit_ends_in_success_or_error
    (reply : awaited (response ConnectionTestResponse)) (p : panel) :
  let p' := handleSubmit reply p in
  posts p' = (posts p ++ [Posted (API_BASE_URL ++ "/connections/test")
                            (buildPayload (form p))])%list
  /\ form p' = form p /\ ingestion p' = ingestion p
  /\ (test_status p' = TestLoading <-> reply = Hangs)
  /\ (reply = Hangs -> errorMessage p' = None /\ result p' = result p)
  /\ (reply <> Hangs -> test_status p' = TestSuccess \/ test_status p' = TestError)
  /\ (test_status p' = TestSuccess
      <-> exists data, reply = Settles (Answers data) /\ success data = true)
  /\ (test_status p' = TestSuccess -> errorMessage p' = None)
  /\ (forall detail, reply = Settles (Refused detail) ->
        test_status p' = TestError
        /\ errorMessage p' = Some (nullish detail "Connection test failed."))
  /\ (forall m, reply = Settles (Rejects m) ->
        test_status p' = TestError
        /\ errorMessage p' = Some (nullish m "An unexpected error occurred."))
  /\ (forall data, reply = Settles (Answers data) -> success data = false ->
        test_status p' = TestError
        /\ errorMessage p'
           = Some (nullish (error data)
                     (nullish (reason data) "Connection test failed.")))
  /\ (test_status p' = TestError ->
        exists text,
          errorMessage p' = Some text
          /\ (text = "" ->
              reply = Settles (Refused (Some ""))
              \/ reply = Settles (Rejects (Some ""))
              \/ exists data,
                   reply = Settles (Answers data)
                   /\ (error data = Some ""
                       \/ (error data = None /\ reason data = Some ""))))
  /\ (forall data, reply = Settles (Answers data) -> result p' = Some data)
  /\ ((forall data, reply <> Settles (Answers data)) -> result p' = result p).
Proof.
  intros p'. subst p'. unfold handleSubmit.
  destruct reply as [[m|d|data]|]; [| |destruct (success data) eqn:Hok|];
    cbn [posts form ingestion test_status errorMessage result with_test post];
    (split; [reflexivity|split; [reflexivity|split; [reflexivity|]]]).
  - split; [split; discriminate|]. split; [discriminate|].
    split; [auto|]. split; [split; [discriminate|now intros (data & H & _)]|].
    split; [discriminate|]. split; [discriminate|].
    split; [intros m' [= <-]; now split|]. split; [discriminate|].
    split; [|split; [discriminate|reflexivity]].
    intros _. eexists. split; [reflexivity|].
    destruct m as [text|]; cbn [nullish]; [|discriminate].
    intros ->. right. now left.
  - split; [split; discriminate|]. split; [discriminate|].
    split; [auto|]. split; [split; [discriminate|now intros (data & H & _)]|].
    split; [discriminate|]. split; [intros d' [= <-]; now split|].
    split; [discriminate|]. split; [discriminate|].
    split; [|split; [discriminate|reflexivity]].
    intros _. eexists. split; [reflexivity|].
    destruct d as [text|]; cbn [nullish]; [|discriminate].
    intros ->. now left.
  - split; [split; discriminate|]. split; [discriminate|].
    split; [auto|]. split; [split; [intros _; now exists data|reflexivity]|].
    split; [reflexivity|]. split; [discriminate|]. split; [discriminate|].
    split; [intros d [= <-] H; rewrite H in Hok; discriminate Hok|].
    split; [discriminate|].
    split; [now intros d [= <-]|intros H; now destruct (H data)].
  - split; [split; discriminate|]. split; [discriminate|].
    split; [auto|].
    split; [split; [discriminate|
                    intros (d & [= <-] & H); rewrite H in Hok; discriminate Hok]|].
    split; [discriminate|]. split; [discriminate|]. split; [discriminate|].
    split; [intros d [= <-] _; now split|].
    split; [|split; [now intros d [= <-]|intros H; now destruct (H data)]].
    intros _. eexists. split; [reflexivity|].
    intros Hempty. right. right. exists data. split; [reflexivity|].
    destruct (error data) as [e|]; cbn [nullish] in Hempty.
    + left. now rewrite Hempty.
    + right. split; [reflexivity|].
      destruct (reason data) as [r|]; cbn [nullish] in Hempty;
        [now rewrite Hempty|discriminate Hempty].
  - split; [split; reflexivity|]. split; [now split|].
    split; [intros H; now destruct H|].
    split; [split; [discriminate|now intros (data & H & _)]|].
    split; [discriminate|]. split; [discriminate|]. split; [discriminate|].
    split; [discriminate|]. split; [discriminate|].
    split; [discriminate|reflexivity].
Qed.


End FormExtras.

Section FormRuns.
Import JS Model Wizard Form Samples.

(** A form with a filled row, a blank row and a row of spaces. *)
Example buildPayload_sample :
  query_parameters
    (buildPayload
       (set_parameters initialState
          [{| name := " page"; value := "1" |}; initialParameter;
           {| name := "  "; value := "x" |}]))
  = [{| name := "page"; value := "1" |}].
Proof. reflexivity. Qed.

End FormRuns.

(* ================================================================== *)
(** * Properties of the insights panel, of the page and of the views *)
(* ================================================================== *)

Section PanelExtras.
Import JS Model Wizard Insights Await.
Context {rt : Runtime}.

(** X12.  The insights panel asks nothing without a connection id or with a
    blank question: it only shows its error text.  Otherwise it issues one
    POST of the question, as typed, to /connections/{id}/analysis, and
    [loading] stays on exactly as long as that request is not answered:
    the source sets no timeout.  Once it is answered, [loading] is off,
    the answer shown is the server's, empty when it has none, and after a
    failure it is empty and the error text is the server's detail, the
    message of the thrown error, or the respective default. *)
Theorem insights_handleSubmit_outcome
    (connectionId : option string) (reply : awaited analysis_reply) (s : insights) :
  let s' := handleSubmit connectionId reply s in
  (falsy connectionId = true \/ trim (question s) = "" ->
     sent s' = sent s
     /\ error s' = Some "Please enter a question before submitting."
     /\ answer s' = answer s /\ loading s' = loading s)
  /\ (forall c, connectionId = Some c -> c <> "" -> trim (question s) <> "" ->
      sent s'
      = (sent s
           ++ [{| req_method := POST;
                  req_url := API_BASE_URL ++ "/connections/" ++ c ++ "/analysis";
                  req_headers := [("Content-Type", "application/json")];
                  req_body := Some [("question", JString (question s))] |}])%list
      /\ (loading s' = true <-> reply = Hangs)
      /\ (reply = Hangs -> answer s' = "" /\ error s' = None)
      /\ (forall answered, reply = Settles answered ->
            loading s' = false
            /\ answer s' = match answered with
                           | AnalysisAnswers a => nullish a ""
                           | _ => ""
                           end
            /\ error s'
               = match answered with
                 | AnalysisAnswers _ => None
                 | AnalysisRefused detail =>
                     Some (nullish detail "Failed to request AI analysis.")
                 | AnalysisRejects m =>
                     Some (nullish m "An unexpected error occurred.")
                 end
            /\ (error s' = None <-> exists a, answered = AnalysisAnswers a)
            /\ (error s' <> None -> answer s' = "")))
  /\ question s' = question s.
Proof.
  intros s'. subst s'. unfold handleSubmit. split; [|split].
  - intros Hblank.
    assert (H : falsy connectionId || String.eqb (trim (question s)) "" = true).
    { destruct Hblank as [->| ->]; [reflexivity|apply orb_true_r]. }
    rewrite H. simpl. auto.
  - intros c -> Hc Hq. apply String.eqb_neq in Hc, Hq. simpl. rewrite Hc, Hq.
    simpl. destruct reply as [[m|d|a]|]; simpl;
      (split; [reflexivity|]).
    + split; [split; discriminate|]. split; [discriminate|].
      intros answered [= <-]. repeat split; try discriminate.
      now intros (a & H).
    + split; [split; discriminate|]. split; [discriminate|].
      intros answered [= <-]. repeat split; try discriminate.
      now intros (a & H).
    + split; [split; discriminate|]. split; [discriminate|].
      intros answered [= <-]. repeat split; try discriminate.
      * now exists a.
      * intros H. now destruct H.
    + split; [split; reflexivity|]. split; [now split|]. discriminate.
  - destruct (falsy connectionId || String.eqb (trim (question s)) "");
      [reflexivity|].
    destruct connectionId; [|reflexivity]. now destruct reply as [[m|d|a]|].
Qed.

End PanelExtras.

Section HomeExtras.
Import JS Model Wizard Home Views Await.
Context {rt : Runtime}.

Lemma find_id_some (items : list ConnectionResponse) (wanted : option string)
    (c : ConnectionResponse) :
  find_id items wanted = Some c -> In c items /\ wanted = Some (id c).
Proof.
  unfold find_id. destruct wanted as [w|]; [|discriminate].
  intros H. apply find_some in H. destruct H as (Hin & Heq).
  apply String.eqb_eq in Heq. now subst.
Qed.

(** X13.  [fetchConnections] issues one GET of /connections, and
    [isLoading] stays on exactly as long as that request is not answered
    (the source sets no timeout), the list and the selection being kept
    meanwhile.  A failure keeps the list and the selection and shows the
    text "Failed to retrieve saved connections." for a response that is
    not ok, and the message of the error, or a default text, otherwise.  A
    success replaces the list and clears the error; the selection is kept
    when the id the callback was created with names a listed connection,
    moves to the first connection when it names none, and is kept over an
    empty list.  So when the callback is up to date and the list is not
    empty, the dashboard has a selected connection afterwards. *)
Theorem fetchConnections_outcome
    (closure : option string) (reply : awaited list_reply) (h : home) :
  let h' := fetchConnections closure reply h in
  fetched h' = (fetched h ++ [{| req_method := GET;
                                 req_url := API_BASE_URL ++ "/connections";
                                 req_headers := []; req_body := None |}])%list
  /\ (isLoading h' = true <-> reply = Hangs)
  /\ showHistory h' = showHistory h
  /\ (reply = Hangs ->
      connections h' = connections h /\ selectedId h' = selectedId h
      /\ errorMessage h' = None)
  /\ (forall answered, reply = Settles answered ->
      (forall items, answered <> ListAnswers items) ->
      isLoading h' = false
      /\ connections h' = connections h /\ selectedId h' = selectedId h
      /\ errorMessage h'
         = Some (match answered with
                 | ListRejects m => nullish m "Error while loading saved connections."
                 | _ => "Failed to retrieve saved connections."
                 end))
  /\ (forall items, reply = Settles (ListAnswers items) ->
      isLoading h' = false
      /\ connections h' = items /\ errorMessage h' = None
      /\ (items = [] -> selectedId h' = selectedId h)
      /\ (forall c, find_id items closure = Some c -> selectedId h' = selectedId h)
      /\ (forall first rest, items = first :: rest -> find_id items closure = None ->
          selectedId h' = Some (id first))
      /\ (closure = selectedId h -> items <> [] ->
          exists c, selected (connections h') (selectedId h') = Some c
                    /\ In c items)).
Proof.
  intros h'. subst h'. unfold fetchConnections.
  fold connections_request.
  destruct reply as [[m| |items]|];
    cbn [connections selectedId isLoading errorMessage showHistory fetched].
  - split; [reflexivity|]. split; [split; discriminate|]. split; [reflexivity|].
    split; [discriminate|]. split; [|discriminate].
    intros answered [= <-] _. repeat split.
  - split; [reflexivity|]. split; [split; discriminate|]. split; [reflexivity|].
    split; [discriminate|]. split; [|discriminate].
    intros answered [= <-] _. repeat split.
  - split; [reflexivity|]. split; [split; discriminate|]. split; [reflexivity|].
    split; [discriminate|]. split.
    + intros answered [= <-] H. now destruct (H items).
    + intros items' [= <-].
      split; [reflexivity|].
      split; [reflexivity|split; [reflexivity|split; [|split; [|split]]]].
      * now intros ->.
      * intros c Hc. destruct items as [|first rest]; [reflexivity|].
        now rewrite Hc.
      * intros first rest -> Hnone. now rewrite Hnone.
      * intros Hcl Hne. destruct items as [|first rest]; [congruence|].
        destruct (find_id (first :: rest) closure) as [c|] eqn:Hfind.
        -- exists c. destruct (find_id_some _ _ _ Hfind) as (Hin & Hw).
           split; [|exact Hin]. rewrite <- Hcl. exact Hfind.
        -- exists first. split; [|now left].
           unfold selected. simpl. now rewrite String.eqb_refl.
  - split; [reflexivity|]. split; [split; reflexivity|]. split; [reflexivity|].
    split; [now repeat split|]. split; discriminate.
Qed.

(** X14.  The dashboard's selection is the first connection that has the selected
    id: it is in the list and has that id, and there is none exactly when
    no id is selected or no connection has it. *)
Theorem selected_is_first_with_id
    (connections : list ConnectionResponse) (selectedId : option string) :
  (forall c, selected connections selectedId = Some c ->
     In c connections /\ selectedId = Some (id c)
     /\ exists before after,
          connections = (before ++ c :: after)%list
          /\ forall other, In other before -> id other <> id c)
  /\ (selected connections selectedId = None
      <-> selectedId = None
          \/ exists wanted, selectedId = Some wanted
                            /\ forall c, In c connections -> id c <> wanted)
  /\ (selected connections selectedId = None ->
      selected_summary connections selectedId = None).
Proof.
  split; [|split].
  - intros c. unfold selected. destruct selectedId as [wanted|]; [|discriminate].
    induction connections as [|x xs IH]; simpl; [discriminate|].
    destruct (String.eqb_spec (id x) wanted) as [Hx|Hx].
    + intros [= <-]. split; [now left|]. split; [now rewrite Hx|].
      exists [], xs. split; [reflexivity|]. now intros other [].
    + intros Hc. destruct (IH Hc) as (Hin & Hid & before & after & -> & Hb).
      split; [now right|]. split; [exact Hid|].
      exists (x :: before), after. split; [reflexivity|].
      intros other [<-|Ho]; [|now apply Hb]. congruence.
  - unfold selected. destruct selectedId as [wanted|]; [|split; auto].
    split.
    + intros Hnone. right. exists wanted. split; [reflexivity|].
      intros c Hc Hid. apply (find_none _ _ Hnone) in Hc.
      apply String.eqb_neq in Hc. contradiction.
    + intros [H|(w & [= <-] & Hall)]; [discriminate|].
      destruct (find _ connections) as [c|] eqn:Hfind; [|reflexivity].
      apply find_some in Hfind. destruct Hfind as (Hin & Heq).
      apply String.eqb_eq in Heq. now destruct (Hall c Hin).
  - unfold selected_summary. now intros ->.
Qed.

(** X15.  The "View Connection History" button is offered exactly when the open
    history modal has previous connections to show, that is, when it does
    not say "No previous connections found."; without the button the
    history is empty. *)
Theorem history_button_matches_modal
    (connections : list ConnectionResponse) (filterText : string) :
  (history_button connections = true
   <-> History.HistoryModal true connections filterText
       <> Some History.NoPreviousConnections)
  /\ (history_button connections = false ->
      History.history_items connections filterText = [])
  /\ (history_button connections = true <-> 2 <= List.length connections).
Proof.
  unfold history_button, History.history_items, History.HistoryModal.
  destruct (List.length connections <=? 1) eqn:Hle.
  - apply Nat.leb_le in Hle.
    assert (H : (1 <? List.length connections) = false) by (apply Nat.ltb_ge; lia).
    rewrite H. repeat split; try discriminate; try congruence. lia.
  - apply Nat.leb_gt in Hle.
    assert (H : (1 <? List.length connections) = true) by (apply Nat.ltb_lt; lia).
    rewrite H. repeat split; try discriminate; try lia.
    now destruct (List.length (History.filtered connections filterText) =? 0).
Qed.


End HomeExtras.

(* ================================================================== *)
(** * Further properties of the chart preview *)
(* ================================================================== *)


Section ChartFacts.
Import JS Model Presets Preview Fixtures.

Lemma insert_by_time_perm (x : object value) (sorted : list (object value)) :
  Permutation (x :: sorted) (insert_by_time x sorted).
Proof.
  induction sorted as [|y rest IH]; simpl; [reflexivity|].
  destruct (time_of x <=? time_of y)%Z; [reflexivity|].
  rewrite perm_swap. now apply perm_skip.
Qed.

Lemma insert_by_time_sorted (x : object value) (sorted : list (object value)) :
  StronglySorted by_time sorted -> StronglySorted by_time (insert_by_time x sorted).
Proof.
  induction 1 as [|y rest Hsorted IH Hall]; simpl.
  - repeat constructor.
  - destruct (time_of x <=? time_of y)%Z eqn:Hxy.
    + apply Z.leb_le in Hxy. constructor; [now constructor|].
      constructor; [exact Hxy|].
      eapply Forall_impl; [|exact Hall]. unfold by_time. intros z Hz. lia.
    + apply Z.leb_gt in Hxy. constructor; [exact IH|].
      apply (Permutation_Forall (insert_by_time_perm x rest)).
      constructor; [unfold by_time; lia|exact Hall].
Qed.

Lemma insert_by_time_least (x : object value) (sorted : list (object value)) :
  Forall (by_time x) sorted -> insert_by_time x sorted = x :: sorted.
Proof.
  destruct sorted as [|y rest]; simpl; [reflexivity|].
  intros H. inversion_clear H as [|? ? Hxy _]. apply Z.leb_le in Hxy.
  now rewrite Hxy.
Qed.

Lemma time_of_labelled (item : object value) (label : value) :
  own (spread item [("dateLabel", label)]) "date" = own item "date"
  /\ own (spread item [("dateLabel", label)]) "dateLabel" = Some label.
Proof.
  unfold spread. simpl. now rewrite !own_assign.
Qed.

Lemma time_of_spread_label (item : object value) (label : value) :
  time_of (spread item [("dateLabel", label)]) = time_of item.
Proof.
  unfold time_of, date_of. now rewrite (proj1 (time_of_labelled item label)).
Qed.

Lemma sorted_map_by_time (f : object value -> object value)
    (items : list (object value)) :
  (forall item, time_of (f item) = time_of item) ->
  StronglySorted by_time items -> StronglySorted by_time (map f items).
Proof.
  intros Hf. induction 1 as [|x rest Hs IH Hall]; cbn [map]; constructor.
  - exact IH.
  - apply Forall_forall. intros y Hy. apply in_map_iff in Hy.
    destruct Hy as (z & <- & Hz). rewrite Forall_forall in Hall.
    specialize (Hall z Hz). unfold by_time in *. now rewrite !Hf.
Qed.

Lemma somes_length_le {A} (xs : list (option A)) :
  List.length (somes xs) <= List.length xs.
Proof.
  induction xs as [|[x|] xs IH]; simpl; lia.
Qed.

(** What a [map] with index followed by the removal of nulls keeps. *)
Lemma in_somes_mapi_from {A B} (g : A -> nat -> option B) (xs : list A) (y : B) :
  forall start,
    In y (somes (mapi_from start g xs))
    <-> exists k x, nth_error xs k = Some x /\ g x (start + k) = Some y.
Proof.
  induction xs as [|x xs IH]; intros start; simpl.
  - split; [easy|]. intros (k & x & Hk & _). now destruct k.
  - split.
    + destruct (g x start) as [y'|] eqn:Hg; simpl.
      * intros [<-|Hin].
        -- exists 0, x. now rewrite Nat.add_0_r.
        -- apply IH in Hin. destruct Hin as (k & x' & Hk & Hy).
           exists (S k), x'. split; [exact Hk|].
           now replace (start + S k) with (S start + k) by lia.
      * intros Hin. apply IH in Hin. destruct Hin as (k & x' & Hk & Hy).
        exists (S k), x'. split; [exact Hk|].
        now replace (start + S k) with (S start + k) by lia.
    + intros (k & x' & Hk & Hy). destruct k as [|k]; simpl in Hk.
      * injection Hk as <-. rewrite Nat.add_0_r in Hy. rewrite Hy. now left.
      * assert (Hin : In y (somes (mapi_from (S start) g xs))).
        { apply IH. exists k, x'. split; [exact Hk|].
          now replace (S start + k) with (start + S k) by lia. }
        destruct (g x start); [now right|exact Hin].
Qed.

Lemma somes_mapi_from_sorted {A B} (g : A -> nat -> option B) (key : B -> nat)
    (xs : list A) :
  (forall x i y, g x i = Some y -> key y = i) ->
  forall start,
    StronglySorted lt (map key (somes (mapi_from start g xs)))
    /\ Forall (fun i => start <= i) (map key (somes (mapi_from start g xs))).
Proof.
  intros Hkey. induction xs as [|x xs IH]; intros start; simpl.
  - split; constructor.
  - destruct (IH (S start)) as (Hs & Hall).
    assert (Hall' : Forall (fun i => start <= i)
                      (map key (somes (mapi_from (S start) g xs)))).
    { eapply Forall_impl; [|exact Hall]. intros i Hi. simpl in Hi. lia. }
    destruct (g x start) as [y|] eqn:Hg; simpl; [|now split].
    rewrite (Hkey _ _ _ Hg). split.
    + constructor; [exact Hs|]. eapply Forall_impl; [|exact Hall].
      intros i Hi. simpl in Hi. lia.
    + constructor; [lia|exact Hall'].
Qed.




Lemma own_iff_In {A} (o : object A) (k : string) (v : A) :
  NoDup (map fst o) -> (own o k = Some v <-> In (k, v) o).
Proof.
  induction o as [|[k0 v0] o IH]; simpl; intros Hnd; [split; easy|].
  inversion_clear Hnd as [|? ? Hnotin Hnd'].
  destruct (String.eqb_spec k0 k) as [->|Hne].
  - split; [intros [= ->]; now left|].
    intros [[= ->]|Hin]; [reflexivity|].
    exfalso. apply Hnotin. apply in_map_iff. now exists (k, v).
  - rewrite (IH Hnd'). split; [now right|].
    intros [[= Hk _]|Hin]; [contradiction|exact Hin].
Qed.

End ChartFacts.

Section ChartExtras.
Import JS Model Presets Preview Fixtures.
Context {rt : Runtime}.

(** The sort of the time-series rows is a stable insertion sort: its result
    is a permutation of the rows in non-decreasing order of their dates,
    and rows that already are in that order are left as they are. *)
Lemma sort_by_time_sorts (items : list (object value)) :
  Permutation items (sort_by_time items)
  /\ StronglySorted by_time (sort_by_time items)
  /\ (StronglySorted by_time items -> sort_by_time items = items).
Proof.
  split; [|split].
  - induction items as [|x rest IH]; simpl; [reflexivity|].
    rewrite <- insert_by_time_perm. now apply perm_skip.
  - induction items as [|x rest IH]; simpl; [constructor|].
    now apply insert_by_time_sorted.
  - induction 1 as [|x rest Hsorted IH Hall]; simpl; [reflexivity|].
    rewrite IH. now apply insert_by_time_least.
Qed.

(** X17.  A time-series chart, when one is drawn, has at least two rows, in
    non-decreasing order of date, each with a [Date] under "date" and a
    string under "dateLabel", and between one and three lines; and only a
    time-series preset draws one. *)
Theorem timeseries_chart_is_sorted
    (summary : IngestionSummary) (preset : VisualizationPreset)
    (data : list (object value)) (lines : list string) :
  chart_of (Some summary) preset = Returned (Some (TimeSeriesLine data lines)) ->
  type preset = timeseries
  /\ 2 <= List.length data
  /\ List.length data <= List.length (sample_records summary)
  /\ StronglySorted by_time data
  /\ Forall (fun row => exists t label,
                 own row "date" = Some (VDate t)
                 /\ own row "dateLabel" = Some (VString label)) data
  /\ 1 <= List.length lines <= 3.
Proof.
  unfold chart_of.
  destruct (type preset) eqn:Htype, (truthy_field preset) as [column|];
    try discriminate.
  - destruct (List.length (numeric_points summary column) <? 2); discriminate.
  - destruct (List.length _ =? 0); [discriminate|].
    destruct (List.length _ <=? 5); discriminate.
  - destruct (List.length _ =? 0); [discriminate|].
    destruct (List.length _ <=? 5); discriminate.
  - unfold timeseries_data.
    set (rows := somes (map (timeseries_row column) (sample_records summary))).
    destruct ((2 <=? List.length rows) && existsb _ rows) eqn:Hthrow;
      [discriminate|].
    cbn [bind].
    set (labelled := map _ (sort_by_time rows)).
    destruct (List.length labelled <? 2) eqn:Hlen; [discriminate|].
    destruct (List.length (timeseries_keys summary labelled) =? 0) eqn:Hkeys;
      [discriminate|].
    cbn [orb]. intros [= <- <-].
    apply Nat.ltb_ge in Hlen. apply Nat.eqb_neq in Hkeys.
    destruct (sort_by_time_sorts rows) as (Hperm & Hsorted & _).
    assert (Hrows : List.length labelled = List.length rows).
    { subst labelled. rewrite length_map. symmetry.
      now apply Permutation_length. }
    assert (Hdated : Forall (fun item => exists t, date_of item = Some t) rows).
    { apply andb_false_iff in Hthrow. destruct Hthrow as [H2|Hex].
      - apply Nat.leb_gt in H2. lia.
      - apply Forall_forall. intros item Hitem.
        destruct (date_of item) as [t|] eqn:Hd; [now exists t|].
        assert (existsb (fun item => match date_of item with
                                     | Some _ => false
                                     | None => true
                                     end) rows = true).
        { apply existsb_exists. exists item. split; [exact Hitem|]. now rewrite Hd. }
        congruence. }
    split; [reflexivity|]. split; [exact Hlen|]. split; [|split; [|split]].
    + rewrite Hrows. subst rows.
      etransitivity; [apply somes_length_le|]. now rewrite length_map.
    + subst labelled. apply sorted_map_by_time; [|exact Hsorted].
      intros item. apply time_of_spread_label.
    + subst labelled. apply Forall_forall. intros row Hrow.
      apply in_map_iff in Hrow. destruct Hrow as (item & <- & Hitem).
      apply (Permutation_in _ (Permutation_sym Hperm)) in Hitem.
      rewrite Forall_forall in Hdated. destruct (Hdated item Hitem) as (t & Ht).
      exists t, (toLocaleString (get item "date")).
      destruct (time_of_labelled item (VString (toLocaleString (get item "date"))))
        as (-> & ->).
      split; [|reflexivity].
      unfold date_of in Ht. destruct (own item "date") as [[| | | | |t'|]|];
        try discriminate. now injection Ht as ->.
    + destruct (timeseries_keys summary labelled) as [|a [|b [|c l]]];
        simpl in *; [easy|lia|lia|lia].
Qed.

(** X18.  The points of a numeric chart are numbers that are not NaN, one at most
    per sample record and in the order of the records: the point of index
    [i] comes from record [i], whose field is that number or a string that
    [Number] converts to it. *)
Theorem numeric_points_are_numbers (summary : IngestionSummary) (column : string) :
  let points := numeric_points summary column in
  StronglySorted lt (map fst points)
  /\ List.length points <= List.length (sample_records summary)
  /\ (forall index x,
        In (index, x) points
        <-> PrimFloat.is_nan x = false
            /\ exists record,
                 nth_error (sample_records summary) index = Some record
                 /\ (get record column = VNumber x
                     \/ exists text, get record column = VString text
                                     /\ Number_of_string text = x)).
Proof.
  intros points. subst points. unfold numeric_points.
  set (g := fun (record : object value) (index : nat) => _).
  split; [|split].
  - apply (somes_mapi_from_sorted g fst).
    intros record i [j x]. unfold g.
    destruct (get record column) as [| |b|y|t|d|tag]; try discriminate.
    + destruct (PrimFloat.is_nan y); [discriminate|]. now intros [= <- _].
    + destruct (PrimFloat.is_nan (Number_of_string t)); [discriminate|].
      now intros [= <- _].
  - etransitivity; [apply somes_length_le|].
    clear. generalize 0. induction (sample_records summary) as [|r rs IH];
      intros start; simpl; [lia|]. specialize (IH (S start)). lia.
  - intros index x. rewrite in_somes_mapi_from. simpl. split.
    + intros (k & record & Hk & Hg). unfold g in Hg.
      destruct (get record column) as [| |b|y|t|d|tag] eqn:Hget; try discriminate.
      * destruct (PrimFloat.is_nan y) eqn:Hnan; [discriminate|].
        injection Hg as <- <-. split; [exact Hnan|]. exists record. auto.
      * destruct (PrimFloat.is_nan (Number_of_string t)) eqn:Hnan; [discriminate|].
        injection Hg as <- <-. split; [exact Hnan|]. exists record.
        split; [exact Hk|]. right. now exists t.
    + intros (Hnan & record & Hk & Hval). exists index, record.
      split; [exact Hk|]. unfold g.
      destruct Hval as [->|(text & -> & <-)]; now rewrite Hnan.
Qed.


End ChartExtras.

Section ChartRuns.
Import JS Model Presets Preview Samples Fixtures.

Lemma timeseries_chart_witness :
  type (createTimeSeriesPreset "ts") = timeseries
  /\ StronglySorted by_time
       [[("date", VDate 1704067200000); ("v", VNumber 1%float);
         ("dateLabel", VString "date")];
        [("date", VDate 1704153600000); ("v", VNumber 2%float);
         ("dateLabel", VString "date")]].
Proof.
  refine ((fun H => conj (proj1 H) (proj1 (proj2 (proj2 (proj2 H)))))
    (timeseries_chart_is_sorted trend (createTimeSeriesPreset "ts") _ ["v"] _)).
  reflexivity.
Defined.

(** Three places, two of them in one region. *)
Example category_counts_sample :
  category_counts
    (summary_of ["region"]
       [[("region", VString "KR")]; [("region", VNull)];
        [("region", VString "JP")]; [("region", VString "KR")]] [])
    (createCategoricalPreset ["region"])
  = [("KR", 2); ("JP", 1)].
Proof. reflexivity. Qed.

End ChartRuns.

(* ================================================================== *)
(** * The keys of the suggested visualizations, the bar of the numeric
      summary and the views of the history modal *)
(* ================================================================== *)

Section KeyFacts.
Import JS Model Presets.
Context {rt : Runtime}.

Lemma append_injective (prefix a b : string) :
  prefix ++ a = prefix ++ b -> a = b.
Proof.
  induction prefix as [|c prefix IH]; simpl; [easy|].
  intros [= H]. now apply IH.
Qed.

Lemma prefixed_NoDup (prefix : string) (columns : list string) :
  NoDup columns -> NoDup (map (String.append prefix) columns).
Proof.
  induction 1 as [|c columns Hnotin Hnd IH]; simpl; constructor; [|exact IH].
  rewrite in_map_iff. intros (c' & Heq & Hin).
  apply append_injective in Heq. now subst c'.
Qed.

Lemma prefixed_first (prefix : string) (columns : list string) (c : ascii) (key : string) :
  String.get 0 prefix = Some c ->
  In key (map (String.append prefix) columns) -> String.get 0 key = Some c.
Proof.
  intros Hc. rewrite in_map_iff. intros (column & <- & _).
  destruct prefix as [|c0 prefix]; [discriminate|exact Hc].
Qed.

Lemma filter_keys_NoDup {A} (p : string * A -> bool) (o : object A) :
  NoDup (map fst o) -> NoDup (map fst (filter p o)).
Proof.
  induction o as [|kv o IH]; simpl; [easy|].
  intros Hnd. inversion_clear Hnd as [|? ? Hnotin Hnd'].
  destruct (p kv); simpl; [|now apply IH].
  constructor; [|now apply IH].
  intros Hin. apply Hnotin. apply in_map_iff in Hin.
  destruct Hin as (kv' & Heq & Hin). apply filter_In in Hin.
  apply in_map_iff. exists kv'. tauto.
Qed.

End KeyFacts.

Section KeyExtras.
Import JS Model Presets.
Context {rt : Runtime}.

(** X20.  The ids of the recommended presets, which the dashboard uses as the
    keys of its list, are pairwise distinct, and no column is recommended
    both for a frequency chart and for a time series; the keys of an object
    being distinct, as in any JS object. *)
Theorem recommendPresets_ids_are_distinct (summary : IngestionSummary) :
  NoDup (Object_keys (numeric_summary summary)) ->
  (forall record, head (sample_records summary) = Some record ->
     NoDup (Object_keys record)) ->
  NoDup (map id (recommendPresets (Some summary)))
  /\ forall column, In column (collectCategoricalFields summary) ->
       ~ In column (collectTimestampFields summary).
Proof.
  unfold Object_keys. intros Hstats Hrecord. split.
  - rewrite recommendPresets_groups, !map_app, !map_map.
    change (map (fun kv => id (createNumericPreset (fst kv) (snd kv)))
              (numeric_summary summary))
      with (map (fun kv : string * NumericSummary => "numeric-" ++ fst kv)
              (numeric_summary summary)).
    change (map (fun column => id (createTimeSeriesPreset column))
              (collectTimestampFields summary))
      with (map (String.append "timeseries-") (collectTimestampFields summary)).
    rewrite <- (map_map fst (String.append "numeric-")).
    assert (Hn : forall key,
              In key (map (String.append "numeric-")
                        (map fst (numeric_summary summary))) ->
              String.get 0 key = Some "n"%char)
      by (intros key; now apply prefixed_first).
    assert (Ht : forall key,
              In key (map (String.append "timeseries-")
                        (collectTimestampFields summary)) ->
              String.get 0 key = Some "t"%char)
      by (intros key; now apply prefixed_first).
    assert (Hc : forall key,
              In key (map id match firstn 2 (collectCategoricalFields summary) with
                             | [] => []
                             | columns => [createCategoricalPreset columns]
                             end) ->
              String.get 0 key = Some "c"%char).
    { intros key. destruct (firstn 2 (collectCategoricalFields summary));
        simpl; [easy|]. now intros [<-|[]]. }
    apply NoDup_app.
    + now apply prefixed_NoDup.
    + apply NoDup_app.
      * destruct (firstn 2 (collectCategoricalFields summary)); simpl;
          repeat constructor; easy.
      * apply prefixed_NoDup. unfold collectTimestampFields, Object_entries.
        destruct (sample_records summary) as [|record rest]; [constructor|].
        apply filter_keys_NoDup. now apply Hrecord.
      * intros key Hkey Hkey'. apply Hc in Hkey. apply Ht in Hkey'. congruence.
    + intros key Hkey Hkey'. apply Hn in Hkey. apply in_app_or in Hkey'.
      destruct Hkey' as [Hkey'|Hkey']; [apply Hc in Hkey'|apply Ht in Hkey'];
        congruence.
  - intros column Hcat Htime.
    apply collectCategoricalFields_spec in Hcat.
    apply collectTimestampFields_spec in Htime.
    destruct Hcat as (record & rest & text & Hsamples & Hin & Hparse).
    destruct Htime as (record' & rest' & text' & Hsamples' & Hin' & Hparse').
    rewrite Hsamples in Hsamples'. injection Hsamples' as <- <-.
    assert (Hnd : NoDup (map fst record)) by (apply Hrecord; now rewrite Hsamples).
    apply (own_iff_In _ _ _ Hnd) in Hin.
    apply (own_iff_In _ _ _ Hnd) in Hin'.
    congruence.
Qed.

End KeyExtras.

Section HistoryExtras.
Import JS Model History.
Context {rt : Runtime}.

(** X21.  The open modal says "No matching connections." exactly when there is
    more than one connection, the filter is not blank and no connection
    past the first matches it: a blank filter never hides the history. *)
Theorem HistoryModal_says_no_match (connections : list ConnectionResponse)
    (filterText : string) :
  HistoryModal true connections filterText = Some NoMatchingConnections
  <-> 1 < List.length connections
      /\ trim filterText <> ""
      /\ forall c, In c (skipn 1 connections) ->
           matches (toLowerCase filterText) c = false.
Proof.
  unfold HistoryModal, filtered, filterConnections.
  destruct (List.length connections <=? 1) eqn:Hlen.
  - apply Nat.leb_le in Hlen. split; [discriminate|]. intros (H & _). lia.
  - apply Nat.leb_gt in Hlen.
    destruct (String.eqb_spec (trim filterText) "") as [Hblank|Hblank].
    + destruct connections as [|a [|b l]]; simpl in Hlen; try lia.
      simpl. split; [discriminate|]. now intros (_ & H & _).
    + destruct (filter (matches (toLowerCase filterText)) (skipn 1 connections))
        as [|c l] eqn:Hfilter; simpl.
      * split; [|reflexivity]. intros _. split; [exact Hlen|]. split; [exact Hblank|].
        intros c Hc. destruct (matches (toLowerCase filterText) c) eqn:Hm;
          [|reflexivity].
        assert (Hin : In c (filter (matches (toLowerCase filterText))
                              (skipn 1 connections)))
          by (apply filter_In; now split).
        rewrite Hfilter in Hin. destruct Hin.
      * split; [discriminate|]. intros (_ & _ & Hnone).
        assert (Hin : In c (filter (matches (toLowerCase filterText))
                              (skipn 1 connections)))
          by (rewrite Hfilter; now left).
        apply filter_In in Hin. destruct Hin as (Hin & Hm).
        rewrite (Hnone c Hin) in Hm. discriminate.
Qed.

End HistoryExtras.

Section MoreRuns.
Import JS Model Presets Preview Dashboard Samples.

Lemma recommendPresets_ids_witness :
  NoDup (map Presets.id (recommendPresets (Some trend)))
  /\ forall column, In column (collectCategoricalFields trend) ->
       ~ In column (collectTimestampFields trend).
Proof.
  apply (recommendPresets_ids_are_distinct trend).
  - vm_compute. repeat constructor; simpl; intuition discriminate.
  - intros record [= <-]. vm_compute. repeat constructor; simpl; intuition discriminate.
Defined.

Lemma meanPercent_in_range_witness :
  PrimFloat.leb 0%float 50%float = true /\ PrimFloat.leb 50%float 100%float = true.
Proof.
  apply (meanPercent_in_range "v"
           {| Model.mean := Some 5%float; Model.minimum := Some 0%float;
              Model.maximum := Some 10%float |} 50%float); reflexivity.
Defined.

Lemma suggested_visualizations_pointwise_witness :
  exists shown,
    suggested_visualizations (Some trend) (recommendPresets (Some trend))
    = Returned shown
    /\ Forall2 (fun preset item =>
                  fst item = Presets.id preset
                  /\ VisualizationPreview (Some trend) preset = Returned (snd item))
         (recommendPresets (Some trend)) shown.
Proof.
  apply (suggested_visualizations_pointwise trend (recommendPresets (Some trend))).
  intros record x Hrecord Hdate. vm_compute in Hrecord.
  destruct Hrecord as [<-|[<-|[]]]; vm_compute in Hdate;
    repeat (destruct Hdate as [Hdate|Hdate]; [discriminate Hdate|]); exact Hdate.
Defined.

End MoreRuns.
